(** * fchat: the chat client of [frontend/src/App.js]

    A shallow embedding of the React component [App]: its state cells, the
    event handlers it installs, and the calls it makes to its host (axios,
    WebSocket, alert, console).  Handlers are written in a small monad that
    threads the component state and the log of host calls and that carries
    JavaScript exceptions, so that each definition can be read next to the
    source function of the same name.

    An [async] function is cut at its [await]: the part that runs before
    it and the part that runs once the promise has settled are two
    handlers, and other events may come in between.  In the first event
    loop, [run], a state setter takes effect at once, as if a render
    followed every event; the second one, [perform_all], keeps apart the
    current state and the state that the closures of the last render saw.
    The markup, the scrolling effect and
    [formatTime] take no part in the properties below and are left out,
    except for the conditions under which the controls are disabled. *)

From Stdlib Require Import List PeanoNat NArith ZArith Bool String Ascii Lia.
From Stdlib Require Import RelationClasses.
From Stdlib Require Import SpecFloat.
Import ListNotations.

Set Implicit Arguments.
Set Warnings "-register-all".
Local Open Scope N_scope.

(** ** JavaScript strings

    A JavaScript string is a sequence of UTF-16 code units. *)

Module JsString.

Definition code_unit := N.
Definition jsstring := list code_unit.

(** A source literal (all literals of App.js are ASCII). *)
Definition js (s : string) : jsstring :=
  map N_of_ascii (list_ascii_of_string s).

Fixpoint eqb (s t : jsstring) : bool :=
  match s, t with
  | [], [] => true
  | c :: s', d :: t' => N.eqb c d && eqb s' t'
  | _, _ => false
  end.

(** ECMAScript WhiteSpace and LineTerminator code points, the ones that
    [String.prototype.trim] strips; all of them are single code units. *)
Definition isWhiteSpace (c : code_unit) : bool :=
  (c =? 0x09) || (c =? 0x0A) || (c =? 0x0B) || (c =? 0x0C) || (c =? 0x0D)
  || (c =? 0x20) || (c =? 0xA0) || (c =? 0x1680)
  || ((0x2000 <=? c) && (c <=? 0x200A))
  || (c =? 0x2028) || (c =? 0x2029) || (c =? 0x202F) || (c =? 0x205F)
  || (c =? 0x3000) || (c =? 0xFEFF).

Fixpoint trimStart (s : jsstring) : jsstring :=
  match s with
  | c :: s' => if isWhiteSpace c then trimStart s' else s
  | [] => []
  end.

Definition trimEnd (s : jsstring) : jsstring := rev (trimStart (rev s)).

(** [s.trim()] *)
Definition trim (s : jsstring) : jsstring := trimEnd (trimStart s).

(** [s.startsWith(p)], returning the rest of [s] after [p]. *)
Fixpoint strip_prefix (p s : jsstring) : option jsstring :=
  match p, s with
  | [], _ => Some s
  | c :: p', d :: s' => if N.eqb c d then strip_prefix p' s' else None
  | _ :: _, [] => None
  end.

(** [s.replace(pattern, replacement)] with a string pattern: the first
    occurrence only.  The replacements used by App.js contain no [$]. *)
Fixpoint replace (pattern replacement s : jsstring) : jsstring :=
  match strip_prefix pattern s with
  | Some rest => replacement ++ rest
  | None =>
      match s with
      | [] => []
      | c :: s' => c :: replace pattern replacement s'
      end
  end.

(** *** encodeURIComponent *)

Definition isUnreserved (c : code_unit) : bool :=
  ((0x41 <=? c) && (c <=? 0x5A)) || ((0x61 <=? c) && (c <=? 0x7A))
  || ((0x30 <=? c) && (c <=? 0x39))
  || (c =? 0x2D) || (c =? 0x5F) || (c =? 0x2E) || (c =? 0x21)
  || (c =? 0x7E) || (c =? 0x2A) || (c =? 0x27) || (c =? 0x28) || (c =? 0x29).

Definition hex_digit (n : N) : code_unit :=
  if n <? 10 then 0x30 + n else 0x41 + (n - 10).

Definition percent (byte : N) : jsstring :=
  [0x25; hex_digit (byte / 16); hex_digit (byte mod 16)].

Definition utf8 (cp : N) : list N :=
  if cp <? 0x80 then [cp]
  else if cp <? 0x800 then
    [0xC0 + cp / 0x40; 0x80 + cp mod 0x40]
  else if cp <? 0x10000 then
    [0xE0 + cp / 0x1000; 0x80 + (cp / 0x40) mod 0x40; 0x80 + cp mod 0x40]
  else
    [0xF0 + cp / 0x40000; 0x80 + (cp / 0x1000) mod 0x40;
     0x80 + (cp / 0x40) mod 0x40; 0x80 + cp mod 0x40].

Definition isHighSurrogate (c : code_unit) := (0xD800 <=? c) && (c <=? 0xDBFF).
Definition isLowSurrogate (c : code_unit) := (0xDC00 <=? c) && (c <=? 0xDFFF).

(** [None] stands for the URIError raised on a lone surrogate. *)
Fixpoint encodeURIComponent (s : jsstring) : option jsstring :=
  match s with
  | [] => Some []
  | c :: s' =>
      if isUnreserved c then option_map (cons c) (encodeURIComponent s')
      else if isLowSurrogate c then None
      else if isHighSurrogate c then
        match s' with
        | d :: s'' =>
            if isLowSurrogate d then
              option_map
                (app (List.concat (map percent
                   (utf8 ((c - 0xD800) * 0x400 + (d - 0xDC00) + 0x10000)))))
                (encodeURIComponent s'')
            else None
        | [] => None
        end
      else
        option_map (app (List.concat (map percent (utf8 c))))
                   (encodeURIComponent s')
  end.

End JsString.
Import JsString.


(** ** JavaScript values

    The values the component handles: the results of [JSON.parse], the data
    of axios responses and errors, and the object literals it builds.
    Numbers are IEEE 754 doubles; the program never computes with them.  An
    object is its list of own properties in insertion order. *)

Inductive value : Type :=
| VUndefined
| VNull
| VBool (b : bool)
| VNumber (x : spec_float)
| VString (s : jsstring)
| VArray (items : list value)
| VObject (props : list (jsstring * value)).

(** The own property [k] of an object, [undefined] when absent. *)
Fixpoint lookup (k : jsstring) (props : list (jsstring * value)) : value :=
  match props with
  | [] => VUndefined
  | (k', v) :: rest => if JsString.eqb k k' then v else lookup k rest
  end.

Definition isNullish (v : value) : bool :=
  match v with
  | VUndefined | VNull => true
  | _ => false
  end.

(** ToBoolean *)
Definition truthy (v : value) : bool :=
  match v with
  | VUndefined | VNull => false
  | VBool b => b
  | VNumber (S754_zero _) | VNumber S754_nan => false
  | VNumber _ => true
  | VString s => negb (JsString.eqb s [])
  | VArray _ | VObject _ => true
  end.

(** [v === 'literal'] *)
Definition strict_equals_string (v : value) (literal : jsstring) : bool :=
  match v with
  | VString s => JsString.eqb s literal
  | _ => false
  end.

(** The error objects raised by the language itself; they have no
    [response] property. *)
Definition TypeError : value := VObject [(js "name", VString (js "TypeError"))].
Definition URIError : value := VObject [(js "name", VString (js "URIError"))].
Definition SyntaxError : value :=
  VObject [(js "name", VString (js "SyntaxError"))].

(** ** Component state (App.js lines 10-17) *)

Definition socket := nat.

Record state : Type := {
  currentUser : value;
  username : jsstring;
  messages : list value;
  newMessage : jsstring;
  onlineUsers : value;
  ws : option socket;
  isConnected : bool;
  registering : bool
}.

Definition initial_state : state := {|
  currentUser := VNull;
  username := [];
  messages := [];
  newMessage := [];
  onlineUsers := VArray [];
  ws := None;
  isConnected := false;
  registering := false
|}.

(** ** Calls to the host, in the order they are made *)

Inductive effect : Type :=
| ConsoleLog (msg : jsstring)
| ConsoleError (msg : jsstring) (error : value)
| Alert (msg : jsstring)
| AxiosGet (url : jsstring)
| AxiosPost (url : jsstring) (body : value)
| NewWebSocket (sock : socket) (url : jsstring)
| WsSend (sock : socket) (data : jsstring).

(** The component together with its host: [sockets] counts the WebSocket
    objects constructed so far (object [k] exists iff [k < sockets]),
    [pending_get] and [pending_post] count the axios promises that have not
    settled yet. *)
Record world : Type := {
  view : state;
  trace : list effect;
  sockets : nat;
  pending_get : nat;
  pending_post : nat
}.

Definition is_send (e : effect) : bool :=
  match e with WsSend _ _ => true | _ => false end.
Definition is_open (e : effect) : bool :=
  match e with NewWebSocket _ _ => true | _ => false end.
Definition is_get (e : effect) : bool :=
  match e with AxiosGet _ => true | _ => false end.

(** The outbound frames, the sockets constructed and the bulk loads
    requested along a trace. *)
Definition sent (t : list effect) : list effect := filter is_send t.
Definition opened (t : list effect) : list effect := filter is_open t.
Definition loads (t : list effect) : list effect := filter is_get t.

(** ** The handler monad *)

Inductive completion (A : Type) : Type :=
| Normal (a : A)
| Throw (error : value).
Arguments Throw {A} error.

Definition M (A : Type) : Type := world -> completion A * world.

Definition ret {A} (a : A) : M A := fun w => (Normal a, w).

Definition bind {A B} (m : M A) (k : A -> M B) : M B :=
  fun w =>
    match m w with
    | (Normal a, w') => k a w'
    | (Throw e, w') => (Throw e, w')
    end.

Definition throw {A} (e : value) : M A := fun w => (Throw e, w).

(** [try { body } catch (error) { handler error } finally { final }] *)
Definition try_catch_finally {A} (body : M A) (handler : value -> M A)
    (final : M unit) : M A :=
  fun w =>
    let (r, w1) :=
      match body w with
      | (Normal a, w') => (Normal a, w')
      | (Throw e, w') => handler e w'
      end in
    match final w1 with
    | (Normal _, w2) => (r, w2)
    | (Throw e, w2) => (Throw e, w2)
    end.

Declare Scope js_scope.
Delimit Scope js_scope with jsm.
Notation "x <- m ;; k" := (bind m (fun x => k))
  (at level 61, m at next level, right associativity) : js_scope.
Notation "m ;; k" := (bind m (fun _ => k))
  (at level 61, right associativity) : js_scope.
Local Open Scope js_scope.

(** *** Record updates *)

Definition with_currentUser (v : value) (s : state) : state :=
  {| currentUser := v; username := username s; messages := messages s;
     newMessage := newMessage s; onlineUsers := onlineUsers s; ws := ws s;
     isConnected := isConnected s; registering := registering s |}.

Definition with_username (v : jsstring) (s : state) : state :=
  {| currentUser := currentUser s; username := v; messages := messages s;
     newMessage := newMessage s; onlineUsers := onlineUsers s; ws := ws s;
     isConnected := isConnected s; registering := registering s |}.

Definition with_messages (v : list value) (s : state) : state :=
  {| currentUser := currentUser s; username := username s; messages := v;
     newMessage := newMessage s; onlineUsers := onlineUsers s; ws := ws s;
     isConnected := isConnected s; registering := registering s |}.

Definition with_newMessage (v : jsstring) (s : state) : state :=
  {| currentUser := currentUser s; username := username s;
     messages := messages s; newMessage := v; onlineUsers := onlineUsers s;
     ws := ws s; isConnected := isConnected s;
     registering := registering s |}.

Definition with_onlineUsers (v : value) (s : state) : state :=
  {| currentUser := currentUser s; username := username s;
     messages := messages s; newMessage := newMessage s; onlineUsers := v;
     ws := ws s; isConnected := isConnected s;
     registering := registering s |}.

Definition with_ws (v : option socket) (s : state) : state :=
  {| currentUser := currentUser s; username := username s;
     messages := messages s; newMessage := newMessage s;
     onlineUsers := onlineUsers s; ws := v; isConnected := isConnected s;
     registering := registering s |}.

Definition with_isConnected (v : bool) (s : state) : state :=
  {| currentUser := currentUser s; username := username s;
     messages := messages s; newMessage := newMessage s;
     onlineUsers := onlineUsers s; ws := ws s; isConnected := v;
     registering := registering s |}.

Definition with_registering (v : bool) (s : state) : state :=
  {| currentUser := currentUser s; username := username s;
     messages := messages s; newMessage := newMessage s;
     onlineUsers := onlineUsers s; ws := ws s;
     isConnected := isConnected s; registering := v |}.

Definition with_view (s : state) (w : world) : world :=
  {| view := s; trace := trace w; sockets := sockets w;
     pending_get := pending_get w; pending_post := pending_post w |}.

(** The world after one more host call. *)
Definition logged (e : effect) (w : world) : world :=
  {| view := view w; trace := trace w ++ [e]; sockets := sockets w;
     pending_get := pending_get w; pending_post := pending_post w |}.

Definition with_sockets (n : nat) (w : world) : world :=
  {| view := view w; trace := trace w; sockets := n;
     pending_get := pending_get w; pending_post := pending_post w |}.

Definition with_pending_get (n : nat) (w : world) : world :=
  {| view := view w; trace := trace w; sockets := sockets w;
     pending_get := n; pending_post := pending_post w |}.

Definition with_pending_post (n : nat) (w : world) : world :=
  {| view := view w; trace := trace w; sockets := sockets w;
     pending_get := pending_get w; pending_post := n |}.

Definition get_state : M state := fun w => (Normal (view w), w).

Definition modify (f : state -> state) : M unit :=
  fun w => (Normal tt, with_view (f (view w)) w).

Definition emit (e : effect) : M unit :=
  fun w => (Normal tt, logged e w).

(** [v.k] on a value that is neither [null] nor [undefined].  None of the
    property names App.js reads ([type], [id], [user_id], [username],
    [content], [timestamp], [users], [response], [data], [detail]) is
    defined on [Object.prototype] or on the prototype of an array or of a
    primitive. *)
Definition field (v : value) (k : string) : value :=
  match v with
  | VObject props => lookup (js k) props
  | _ => VUndefined
  end.

(** [v.k]: a TypeError on [null] and [undefined]. *)
Definition Get (v : value) (k : string) : M value :=
  if isNullish v then throw TypeError else ret (field v k).

(** [v?.k] *)
Definition OptGet (v : value) (k : string) : M value :=
  if isNullish v then ret VUndefined else Get v k.

(** The value of [error.response?.data?.detail] for an error object. *)
Definition detail_of (error : value) : value :=
  let response := field error "response" in
  if isNullish response then VUndefined
  else
    let data := field response "data" in
    if isNullish data then VUndefined else field data "detail".

(** *** State setters (the second components of lines 10-17) *)

Definition setCurrentUser (v : value) : M unit := modify (with_currentUser v).
Definition setUsername (v : jsstring) : M unit := modify (with_username v).

(** [setMessages] takes the updater; [setMessages(x)] is [fun _ => x]. *)
Definition setMessages (f : list value -> list value) : M unit :=
  modify (fun s => with_messages (f (messages s)) s).

Definition setNewMessage (v : jsstring) : M unit := modify (with_newMessage v).
Definition setOnlineUsers (v : value) : M unit := modify (with_onlineUsers v).
Definition setWs (v : option socket) : M unit := modify (with_ws v).
Definition setIsConnected (v : bool) : M unit := modify (with_isConnected v).
Definition setRegistering (v : bool) : M unit := modify (with_registering v).

(** *** Host calls *)

Definition console_log (msg : string) : M unit := emit (ConsoleLog (js msg)).

Definition console_error (msg : string) (error : value) : M unit :=
  emit (ConsoleError (js msg) error).

(** [axios.get(url)] up to the point where the caller awaits it. *)
Definition axios_get (url : jsstring) : M unit :=
  fun w => (Normal tt,
            with_pending_get (S (pending_get w)) (logged (AxiosGet url) w)).

(** [axios.post(url, body)] up to the point where the caller awaits it. *)
Definition axios_post (url : jsstring) (body : value) : M unit :=
  fun w => (Normal tt,
            with_pending_post (S (pending_post w))
              (logged (AxiosPost url body) w)).

(** [new WebSocket(url)]: a fresh object.  The constructor is taken to
    accept the URL, which is the case when [BACKEND_URL] is an http(s)
    URL and the id brings no fragment into it (the constructor throws a
    SyntaxError otherwise). *)
Definition new_WebSocket (url : jsstring) : M socket :=
  fun w => (Normal (sockets w),
            with_sockets (S (sockets w))
              (logged (NewWebSocket (sockets w) url) w)).

(** [ws.send(data)]; a TypeError when [ws] is [null].  The trace records
    the call made on the socket, which is taken to have left the
    connecting state ([send] throws InvalidStateError on a socket that is
    still connecting). *)
Definition ws_send (ws : option socket) (data : jsstring) : M unit :=
  match ws with
  | Some sock => emit (WsSend sock data)
  | None => throw TypeError
  end.

(** An axios promise settles with a response, of which the component only
    reads [data], or with an error. *)
Inductive settled (A : Type) : Type :=
| Fulfilled (response_data : A)
| Rejected (error : value).
Arguments Rejected {A} error.

(** The events the component reacts to (see [handler] below). *)
Inductive event : Type :=
| UsernameChange (v : jsstring)
| UsernameKeyPress (key : jsstring)
| JoinClick
| RegisterSettled (o : settled value)
| MessagesSettled (o : settled (list value))
| NewMessageChange (v : jsstring)
| NewMessageKeyPress (key : jsstring) (shiftKey : bool)
| SendClick
| WsOpen (sock : socket)
| WsMessage (sock : socket) (event_data : jsstring)
| WsClose (sock : socket)
| WsError (sock : socket) (error : value).

Definition is_ws_open (ev : event) : bool :=
  match ev with WsOpen _ => true | _ => false end.

Definition is_registered (ev : event) : bool :=
  match ev with RegisterSettled (Fulfilled _) => true | _ => false end.



(** ** The component

    What the component takes from its environment:
    [process.env.REACT_APP_BACKEND_URL] (taken to be set), [JSON.parse]
    ([None] is the SyntaxError on malformed text), [JSON.stringify], and the
    conversion of a number to a string. *)

Class Runtime : Type := {
  BACKEND_URL : jsstring;
  JSON_parse : jsstring -> option value;
  JSON_stringify : value -> jsstring;
  Number_toString : spec_float -> jsstring
}.

Section App.

Context {runtime : Runtime}.

(** App.js lines 6-7 *)
Definition API : jsstring := BACKEND_URL ++ js "/api".
Definition WS_URL : jsstring :=
  replace (js "http://") (js "ws://")
    (replace (js "https://") (js "wss://") BACKEND_URL).

(** ToString, as applied to the substitutions of a template literal and to
    the argument of [alert].  An array is its elements joined by commas,
    [null] and [undefined] elements giving the empty string.  An object is
    taken to have no own [toString] property (the conversion of one that
    has throws a TypeError); the statements below that depend on a
    conversion are about strings. *)
Fixpoint ToString (v : value) : jsstring :=
  match v with
  | VUndefined => js "undefined"
  | VNull => js "null"
  | VBool true => js "true"
  | VBool false => js "false"
  | VNumber x => Number_toString x
  | VString s => s
  | VArray items =>
      (fix join (l : list value) : jsstring :=
         match l with
         | [] => []
         | x :: rest =>
             (if isNullish x then [] else ToString x)
             ++ match rest with
                | [] => []
                | _ :: _ => js "," ++ join rest
                end
         end) items
  | VObject _ => js "[object Object]"
  end.

Definition alert (v : value) : M unit := emit (Alert (ToString v)).

(** *** loadMessages (lines 33-40)

    The part before the [await], and the part that runs once the promise
    has settled.  [GET /api/messages] answers with an array. *)
Definition loadMessages : M unit :=
  axios_get (API ++ js "/messages").

Definition loadMessages_settled (o : settled (list value)) : M unit :=
  match o with
  | Fulfilled response_data => setMessages (fun _ => response_data)
  | Rejected error => console_error "Failed to load messages:" error
  end.

(** *** connectWebSocket (lines 61-96)

    The four hooks it installs on the new socket are [onopen], [onmessage],
    [onclose] and [onerror] below; they close over the state setters only. *)
Definition connectWebSocket (userId username : value) : M unit :=
  encoded <- match encodeURIComponent (ToString username) with
             | Some e => ret e
             | None => throw URIError
             end ;;
  websocket <- new_WebSocket
    (WS_URL ++ js "/api/ws/" ++ ToString userId
     ++ js "?username=" ++ encoded) ;;
  setWs (Some websocket).

Definition onopen : M unit :=
  console_log "WebSocket connected" ;;
  setIsConnected true.

Definition onmessage (event_data : jsstring) : M unit :=
  data <- match JSON_parse event_data with
          | Some v => ret v
          | None => throw SyntaxError
          end ;;
  type <- Get data "type" ;;
  if strict_equals_string type (js "message") then
    id <- Get data "id" ;;
    user_id <- Get data "user_id" ;;
    username <- Get data "username" ;;
    content <- Get data "content" ;;
    timestamp <- Get data "timestamp" ;;
    setMessages (fun prev =>
      prev ++ [VObject [(js "id", id);
                        (js "user_id", user_id);
                        (js "username", username);
                        (js "content", content);
                        (js "timestamp", timestamp)]])
  else
    type' <- Get data "type" ;;
    if strict_equals_string type' (js "users_online") then
      users <- Get data "users" ;;
      setOnlineUsers users
    else ret tt.

Definition onclose : M unit :=
  console_log "WebSocket disconnected" ;;
  setIsConnected false.

Definition onerror (error : value) : M unit :=
  console_error "WebSocket error:" error ;;
  setIsConnected false.

(** *** handleRegister (lines 42-59)

    [handleRegister] is the part before the [await]; [handleRegister_settled]
    is the rest of the [try] block with its [catch] and [finally]. *)
Definition handleRegister : M unit :=
  s <- get_state ;;
  if negb (truthy (VString (trim (username s)))) then ret tt
  else
    setRegistering true ;;
    axios_post (API ++ js "/register")
               (VObject [(js "username", VString (trim (username s)))]).

Definition handleRegister_settled (o : settled value) : M unit :=
  try_catch_finally
    (match o with
     | Fulfilled response_data =>
         let user := response_data in
         setCurrentUser user ;;
         id <- Get user "id" ;;
         username <- Get user "username" ;;
         connectWebSocket id username
     | Rejected error => throw error
     end)
    (fun error =>
       response <- Get error "response" ;;
       data <- OptGet response "data" ;;
       detail <- OptGet data "detail" ;;
       alert (if truthy detail then detail
              else VString (js "Registration failed")))
    (setRegistering false).

(** *** sendMessage and handleKeyPress (lines 98-114) *)
Definition sendMessage : M unit :=
  s <- get_state ;;
  if negb (truthy (VString (trim (newMessage s))))
     || negb (match ws s with Some _ => true | None => false end)
     || negb (isConnected s)
  then ret tt
  else
    ws_send (ws s)
      (JSON_stringify
         (VObject [(js "type", VString (js "message"));
                   (js "content", VString (trim (newMessage s)))])) ;;
    setNewMessage [].

Definition handleKeyPress (key : jsstring) (shiftKey : bool) : M unit :=
  if JsString.eqb key (js "Enter") && negb shiftKey then sendMessage
  else ret tt.

(** *** What is rendered (lines 125, 152, 261, 265) *)
Definition login_screen (s : state) : bool := negb (truthy (currentUser s)).

Definition join_disabled (s : state) : bool :=
  negb (truthy (VString (trim (username s)))) || registering s.

Definition input_disabled (s : state) : bool := negb (isConnected s).

Definition send_disabled (s : state) : bool :=
  negb (truthy (VString (trim (newMessage s)))) || negb (isConnected s).

(** ** The event loop

    One event is one task of the browser: a DOM event on one of the
    controls, the settling of an axios promise, or one of the four events of
    a socket that has been constructed.  An exception that leaves a handler
    ends that task; the updates made before it stay.  The DOM events are
    not restricted to the controls that are on screen and enabled, so the
    runs below include every run of the component. *)

Definition handler (ev : event) : M unit :=
  match ev with
  | UsernameChange v => setUsername v
  | UsernameKeyPress key =>
      if JsString.eqb key (js "Enter") then handleRegister else ret tt
  | JoinClick => handleRegister
  | RegisterSettled o => handleRegister_settled o
  | MessagesSettled o => loadMessages_settled o
  | NewMessageChange v => setNewMessage v
  | NewMessageKeyPress key shiftKey => handleKeyPress key shiftKey
  | SendClick => sendMessage
  | WsOpen _ => onopen
  | WsMessage _ event_data => onmessage event_data
  | WsClose _ => onclose
  | WsError _ error => onerror error
  end.

(** An axios promise settles only if it is pending, and a socket event is
    delivered only to a socket that exists. *)
Definition enabled (ev : event) (w : world) : bool :=
  match ev with
  | RegisterSettled _ => Nat.ltb 0 (pending_post w)
  | MessagesSettled _ => Nat.ltb 0 (pending_get w)
  | WsOpen k | WsMessage k _ | WsClose k | WsError k _ => Nat.ltb k (sockets w)
  | _ => true
  end.

Definition settle (ev : event) (w : world) : world :=
  match ev with
  | RegisterSettled _ => with_pending_post (Nat.pred (pending_post w)) w
  | MessagesSettled _ => with_pending_get (Nat.pred (pending_get w)) w
  | _ => w
  end.

Definition step (w : world) (ev : event) : option world :=
  if enabled ev w then Some (snd (handler ev (settle ev w))) else None.

Fixpoint run (w : world) (evs : list event) : option world :=
  match evs with
  | [] => Some w
  | ev :: rest =>
      match step w ev with
      | Some w' => run w' rest
      | None => None
      end
  end.

(** The world once the component has mounted: the effect of line 29 has
    called [loadMessages]. *)
Definition mounted : world :=
  snd (loadMessages {| view := initial_state; trace := []; sockets := 0;
                       pending_get := 0; pending_post := 0 |}).

Definition reachable (w : world) : Prop :=
  exists evs, run mounted evs = Some w.

End App.

(** ** Notions used in the statements *)

(** A string that is empty or made of white space only. *)
Definition blank (s : jsstring) : bool := forallb isWhiteSpace s.

(** The flag [isConnected] is only ever true once a socket exists, and [ws]
    holds a socket from the moment one has been constructed. *)
Definition socket_invariant (w : world) : Prop :=
  (isConnected (view w) = true -> (0 < sockets w)%nat)
  /\ ((0 < sockets w)%nat -> ws (view w) <> None).

(** [m] takes every world to one related to it by [R], however it
    completes. *)
Definition preserves {A} (R : world -> world -> Prop) (m : M A) : Prop :=
  forall w, R w (snd (m w)).

(** While the flag is down it stays down and nothing is sent. *)
Definition keeps_disconnected (w w' : world) : Prop :=
  isConnected (view w) = false ->
  isConnected (view w') = false /\ sent (trace w') = sent (trace w).

(** No socket is constructed. *)
Definition keeps_sockets (w w' : world) : Prop :=
  opened (trace w') = opened (trace w) /\ sockets w' = sockets w.

(** No [GET] is issued. *)
Definition keeps_gets (w w' : world) : Prop :=
  loads (trace w') = loads (trace w).

(** Sockets are only added, the flag is not raised, and [ws] is not reset:
    it holds a socket afterwards if it did before or if one was added. *)
Definition grows (w w' : world) : Prop :=
  (sockets w <= sockets w')%nat
  /\ (isConnected (view w') = true -> isConnected (view w) = true)
  /\ (ws (view w) <> None \/ (sockets w < sockets w')%nat ->
      ws (view w') <> None).

(** ** Further notions *)

(** [pattern] occurs somewhere in [s]. *)
Fixpoint occurs (pattern s : jsstring) : bool :=
  match strip_prefix pattern s with
  | Some _ => true
  | None =>
      match s with
      | [] => false
      | _ :: s' => occurs pattern s'
      end
  end.

(** Every element is a 16-bit code unit. *)
Definition code_units (s : jsstring) : Prop := Forall (fun c => c < 0x10000) s.

(** No lone surrogate: every high surrogate is followed by a low one and
    every low surrogate follows a high one. *)
Fixpoint isWellFormed (s : jsstring) : bool :=
  match s with
  | [] => true
  | c :: s' =>
      if isLowSurrogate c then false
      else if isHighSurrogate c then
        match s' with
        | d :: s'' => isLowSurrogate d && isWellFormed s''
        | [] => false
        end
      else isWellFormed s'
  end.

(** An unreserved character or the percent sign. *)
Definition isUriSafe (c : code_unit) : bool := isUnreserved c || (c =? 0x25).

(** Not empty, and neither the first nor the last code unit is white
    space. *)
Definition trimmed (s : jsstring) : bool :=
  match s with
  | [] => false
  | c :: _ => negb (isWhiteSpace c) && negb (isWhiteSpace (last s c))
  end.

(** The entry that [onmessage] builds from a frame. *)
Definition entry_of (data : value) : value :=
  VObject [(js "id", field data "id");
           (js "user_id", field data "user_id");
           (js "username", field data "username");
           (js "content", field data "content");
           (js "timestamp", field data "timestamp")].

(** The socket constructed last, when [n] have been. *)
Definition latest (n : nat) : option socket :=
  match n with
  | O => None
  | S k => Some k
  end.

Definition is_loaded (ev : event) : bool :=
  match ev with MessagesSettled (Fulfilled _) => true | _ => false end.

(** [P] is kept. *)
Definition invariant_step (P : world -> Prop) (w w' : world) : Prop :=
  P w -> P w'.

(** The message list only gets longer, at its end. *)
Definition extends (w w' : world) : Prop :=
  exists more, messages (view w') = messages (view w) ++ more.

Definition keeps_user (w w' : world) : Prop :=
  currentUser (view w') = currentUser (view w).

(** A registration request carries a trimmed, non-empty username. *)
Definition post_ok {runtime : Runtime} (e : effect) : Prop :=
  match e with
  | AxiosPost url body =>
      url = API ++ js "/register"
      /\ exists u, trimmed u = true
                   /\ body = VObject [(js "username", VString u)]
  | _ => True
  end.

(** An outbound frame is a [message] with trimmed, non-empty content. *)
Definition send_ok {runtime : Runtime} (e : effect) : Prop :=
  match e with
  | WsSend _ data =>
      exists c, trimmed c = true
                /\ data = JSON_stringify
                            (VObject [(js "type", VString (js "message"));
                                      (js "content", VString c)])
  | _ => True
  end.

Definition posts_ok {runtime : Runtime} (w : world) : Prop :=
  Forall post_ok (trace w).

Definition sends_ok {runtime : Runtime} (w : world) : Prop :=
  Forall send_ok (trace w).

(** [ws] is the socket constructed last, and the sockets are the ones the
    trace shows. *)
Definition ws_latest (w : world) : Prop :=
  ws (view w) = latest (sockets w)
  /\ sockets w = List.length (opened (trace w)).

(** ** Rendering

    The handlers attached to the controls are closures made by the last
    render: [handleRegister], [sendMessage] and [handleKeyPress] read the
    state cells as that render saw them, while the setters act on the
    current state.  React decides when the next render runs and which
    pending updates it takes in: the updates made in a DOM event handler
    are rendered at the end of that event, those made in a socket hook or
    after an [await] in a later task.  Here a render may come between any
    two events and bring any of the cells up to date; [run] above is the
    case where a render of all cells follows every event. *)

Section Rendering.

Context {runtime : Runtime}.

(** The three handlers as made by a render that saw the state [s]. *)
Definition handleRegister_closure (s : state) : M unit :=
  if negb (truthy (VString (trim (username s)))) then ret tt
  else
    setRegistering true ;;
    axios_post (API ++ js "/register")
               (VObject [(js "username", VString (trim (username s)))]).

Definition sendMessage_closure (s : state) : M unit :=
  if negb (truthy (VString (trim (newMessage s))))
     || negb (match ws s with Some _ => true | None => false end)
     || negb (isConnected s)
  then ret tt
  else
    ws_send (ws s)
      (JSON_stringify
         (VObject [(js "type", VString (js "message"));
                   (js "content", VString (trim (newMessage s)))])) ;;
    setNewMessage [].

Definition handleKeyPress_closure (s : state) (key : jsstring)
    (shiftKey : bool) : M unit :=
  if JsString.eqb key (js "Enter") && negb shiftKey
  then sendMessage_closure s
  else ret tt.

(** The socket hooks and the continuations read no state cell. *)
Definition closure_handler (s : state) (ev : event) : M unit :=
  match ev with
  | UsernameKeyPress key =>
      if JsString.eqb key (js "Enter") then handleRegister_closure s
      else ret tt
  | JoinClick => handleRegister_closure s
  | NewMessageKeyPress key shiftKey => handleKeyPress_closure s key shiftKey
  | SendClick => sendMessage_closure s
  | _ => handler ev
  end.

(** The component with the state its last render saw. *)
Record page : Type := {
  now : world;
  shown : state
}.

(** The cells that a render brings up to date. *)
Record commit : Type := {
  c_currentUser : bool;
  c_username : bool;
  c_messages : bool;
  c_newMessage : bool;
  c_onlineUsers : bool;
  c_ws : bool;
  c_isConnected : bool;
  c_registering : bool
}.

Definition render (c : commit) (latest seen : state) : state :=
  {| currentUser :=
       if c_currentUser c then currentUser latest else currentUser seen;
     username := if c_username c then username latest else username seen;
     messages := if c_messages c then messages latest else messages seen;
     newMessage :=
       if c_newMessage c then newMessage latest else newMessage seen;
     onlineUsers :=
       if c_onlineUsers c then onlineUsers latest else onlineUsers seen;
     ws := if c_ws c then ws latest else ws seen;
     isConnected :=
       if c_isConnected c then isConnected latest else isConnected seen;
     registering :=
       if c_registering c then registering latest else registering seen |}.

Definition render_all : commit :=
  {| c_currentUser := true; c_username := true; c_messages := true;
     c_newMessage := true; c_onlineUsers := true; c_ws := true;
     c_isConnected := true; c_registering := true |}.

Inductive task : Type :=
| Deliver (ev : event)
| Render (c : commit).



Definition perform (p : page) (t : task) : option page :=
  match t with
  | Deliver ev =>
      if enabled ev (now p)
      then Some {| now := snd (closure_handler (shown p) ev
                                 (settle ev (now p)));
                   shown := shown p |}
      else None
  | Render c =>
      Some {| now := now p; shown := render c (view (now p)) (shown p) |}
  end.

Fixpoint perform_all (p : page) (ts : list task) : option page :=
  match ts with
  | [] => Some p
  | t :: rest =>
      match perform p t with
      | Some p' => perform_all p' rest
      | None => None
      end
  end.

(** A page that has just been rendered. *)
Definition page_of (w : world) : page := {| now := w; shown := view w |}.

(** Every event followed by a render of all cells. *)
Definition rendered_after_each (evs : list event) : list task :=
  flat_map (fun ev => [Deliver ev; Render render_all]) evs.

End Rendering.

(** ** A runtime to run the component on examples

    [stringify] writes the JSON text of a value whose strings need no
    escapes (a number is written [0]); [parse] reads back the text of the
    frames below and of [null], and rejects any other text. *)

Module Demo.

Definition quote (s : jsstring) : jsstring := 0x22 :: s ++ [0x22].

Fixpoint stringify (v : value) : jsstring :=
  match v with
  | VUndefined | VNull => js "null"
  | VBool true => js "true"
  | VBool false => js "false"
  | VNumber _ => js "0"
  | VString s => quote s
  | VArray items =>
      js "["
      ++ (fix elements (l : list value) : jsstring :=
            match l with
            | [] => []
            | x :: rest =>
                stringify x
                ++ match rest with
                   | [] => []
                   | _ :: _ => js "," ++ elements rest
                   end
            end) items
      ++ js "]"
  | VObject props =>
      js "{"
      ++ (fix members (l : list (jsstring * value)) : jsstring :=
            match l with
            | [] => []
            | (k, x) :: rest =>
                quote k ++ js ":" ++ stringify x
                ++ match rest with
                   | [] => []
                   | _ :: _ => js "," ++ members rest
                   end
            end) props
      ++ js "}"
  end.

Definition frame_m1 : value :=
  VObject [(js "type", VString (js "message"));
           (js "id", VString (js "m1"));
           (js "user_id", VString (js "u2"));
           (js "username", VString (js "bob"));
           (js "content", VString (js "hi"));
           (js "timestamp", VString (js "2025-01-01T00:00:00"))].

Definition frame_users : value :=
  VObject [(js "type", VString (js "users_online"));
           (js "users",
            VArray [VObject [(js "id", VString (js "u2"));
                             (js "username", VString (js "bob"))]])].

Definition frame_typing : value :=
  VObject [(js "type", VString (js "typing"));
           (js "user_id", VString (js "u2"))].

Definition parse (text : jsstring) : option value :=
  find (fun v => JsString.eqb (stringify v) text)
       [frame_m1; frame_users; frame_typing; VNull].

Definition runtime : Runtime := {|
  BACKEND_URL := js "http://localhost:8001";
  JSON_parse := parse;
  JSON_stringify := stringify;
  Number_toString := fun _ => js "0"
|}.

Definition alice : value :=
  VObject [(js "id", VString (js "u1")); (js "username", VString (js "alice"))].

(** A session: alice registers, the socket opens, bob is reported online
    and says hi. *)
Definition session : list event :=
  [MessagesSettled (Fulfilled []);
   UsernameChange (js "alice");
   JoinClick;
   RegisterSettled (Fulfilled alice);
   WsOpen 0%nat;
   WsMessage 0%nat (stringify frame_users);
   WsMessage 0%nat (stringify frame_m1)].

(** The world that [session] leads to. *)
Definition chatting : world :=
  {| view :=
       {| currentUser := alice;
          username := js "alice";
          messages :=
            [VObject [(js "id", VString (js "m1"));
                      (js "user_id", VString (js "u2"));
                      (js "username", VString (js "bob"));
                      (js "content", VString (js "hi"));
                      (js "timestamp", VString (js "2025-01-01T00:00:00"))]];
          newMessage := [];
          onlineUsers :=
            VArray [VObject [(js "id", VString (js "u2"));
                             (js "username", VString (js "bob"))]];
          ws := Some 0%nat;
          isConnected := true;
          registering := false |};
     trace :=
       [AxiosGet (js "http://localhost:8001/api/messages");
        AxiosPost (js "http://localhost:8001/api/register")
                  (VObject [(js "username", VString (js "alice"))]);
        NewWebSocket 0%nat (js "ws://localhost:8001/api/ws/u1?username=alice");
        ConsoleLog (js "WebSocket connected")];
     sockets := 1;
     pending_get := 0;
     pending_post := 0 |}.

(** [chatting] with something typed into the message box. *)
Definition typed (input : jsstring) : world :=
  with_view (with_newMessage input (view chatting)) chatting.

(** Errors of a registration request: the server answers with an empty
    [detail], with a message, or not at all. *)
Definition error_empty_detail : value :=
  VObject [(js "response",
            VObject [(js "data", VObject [(js "detail", VString [])])])].

Definition error_taken : value :=
  VObject [(js "response",
            VObject [(js "data",
                      VObject [(js "detail",
                                VString (js "Username already taken"))])])].

Definition error_network : value :=
  VObject [(js "message", VString (js "Network Error"))].

(** The login screen with [alice] typed in and a request in flight. *)
Definition joining : world :=
  {| view := with_registering true (with_username (js "alice") initial_state);
     trace := [AxiosGet (js "http://localhost:8001/api/messages");
               AxiosPost (js "http://localhost:8001/api/register")
                         (VObject [(js "username", VString (js "alice"))])];
     sockets := 0;
     pending_get := 0;
     pending_post := 1 |}.

(** The same runtime behind another backend address. *)
Definition runtime_at (url : jsstring) : Runtime := {|
  BACKEND_URL := url;
  JSON_parse := parse;
  JSON_stringify := stringify;
  Number_toString := fun _ => js "0"
|}.

(** [chatting] after the socket has closed. *)
Definition stranded : world :=
  with_view (with_isConnected false (view chatting))
    (logged (ConsoleLog (js "WebSocket disconnected")) chatting).

End Demo.


(** * Properties *)

Section Properties.

Context {runtime : Runtime}.

(** ** Strings *)

Lemma eqb_eq (s t : jsstring) : JsString.eqb s t = true <-> s = t.
Proof.
  revert t; induction s as [|c s IH]; intros [|d t]; simpl;
    try (split; [discriminate | discriminate]); try tauto.
  rewrite andb_true_iff, N.eqb_eq, IH.
  split; [intros [-> ->]; reflexivity | intros H; inversion H; auto].
Qed.

Lemma eqb_refl (s : jsstring) : JsString.eqb s s = true.
Proof. apply eqb_eq; reflexivity. Qed.

Lemma strict_equals_string_true (v : value) (literal : jsstring) :
  strict_equals_string v literal = true <-> v = VString literal.
Proof.
  destruct v; simpl; try (split; [discriminate | discriminate]).
  rewrite eqb_eq; split; [intros -> | intros H; inversion H]; reflexivity.
Qed.

Lemma strict_equals_string_false (v : value) (literal : jsstring) :
  v <> VString literal -> strict_equals_string v literal = false.
Proof.
  intros H; destruct (strict_equals_string v literal) eqn:E; [|reflexivity].
  apply strict_equals_string_true in E; contradiction.
Qed.

Lemma truthy_string (s : jsstring) : truthy (VString s) = false <-> s = [].
Proof.
  simpl; rewrite negb_false_iff; apply eqb_eq.
Qed.

Lemma trimStart_blank (s : jsstring) : blank s = true -> trimStart s = [].
Proof.
  induction s as [|c s IH]; simpl; [reflexivity|].
  rewrite andb_true_iff; intros [-> H]; auto.
Qed.

Lemma trimStart_nil_blank (s : jsstring) : trimStart s = [] -> blank s = true.
Proof.
  induction s as [|c s IH]; simpl; [reflexivity|].
  destruct (isWhiteSpace c); [auto | discriminate].
Qed.

Lemma blank_app (s t : jsstring) : blank (s ++ t) = blank s && blank t.
Proof. apply forallb_app. Qed.

Lemma blank_rev (s : jsstring) : blank (rev s) = blank s.
Proof.
  induction s as [|c s IH]; simpl; [reflexivity|].
  rewrite blank_app, IH; simpl; rewrite andb_true_r; apply andb_comm.
Qed.

(** The suffix kept by [trimStart] is blank only if the whole string is. *)
Lemma trimStart_suffix (s : jsstring) :
  exists p, s = p ++ trimStart s /\ blank p = true.
Proof.
  induction s as [|c s [p [Hs Hp]]]; simpl.
  - exists []; auto.
  - destruct (isWhiteSpace c) eqn:E.
    + exists (c :: p); simpl; rewrite E, Hp; split; [congruence | reflexivity].
    + exists []; auto.
Qed.

(** [s.trim()] is empty exactly when [s] is empty or white space only. *)
Lemma trim_nil_iff (s : jsstring) : trim s = [] <-> blank s = true.
Proof.
  unfold trim, trimEnd; split.
  - intros H.
    assert (Hr : trimStart (rev (trimStart s)) = []).
    { rewrite <- (rev_involutive (trimStart _)), H; reflexivity. }
    apply trimStart_nil_blank in Hr; rewrite blank_rev in Hr.
    destruct (trimStart_suffix s) as [p [Hs Hp]].
    rewrite Hs, blank_app, Hp, Hr; reflexivity.
  - intros H; rewrite (trimStart_blank _ H); reflexivity.
Qed.

Lemma truthy_trim (s : jsstring) :
  truthy (VString (trim s)) = negb (blank s).
Proof.
  destruct (blank s) eqn:E.
  - apply truthy_string, trim_nil_iff, E.
  - destruct (truthy (VString (trim s))) eqn:T; [reflexivity|].
    apply truthy_string, trim_nil_iff in T; congruence.
Qed.

(** ** The receive path *)

Lemma field_not_nullish (data : value) (k : string) (v : value) :
  field data k = v -> v <> VUndefined -> isNullish data = false.
Proof.
  intros H Hv; destruct data; simpl in *; congruence.
Qed.

(** C1: an inbound frame tagged [message] appends exactly one entry, made
    of the frame's [id], [user_id], [username], [content] and [timestamp],
    at the end of the message list; the entries already there, and every
    other part of the world, stay as they are. *)
Theorem onmessage_message_appends (w : world) (event_data : jsstring)
    (data : value) :
  JSON_parse event_data = Some data ->
  field data "type" = VString (js "message") ->
  onmessage event_data w =
    (Normal tt,
     with_view
       (with_messages
          (messages (view w)
           ++ [VObject [(js "id", field data "id");
                        (js "user_id", field data "user_id");
                        (js "username", field data "username");
                        (js "content", field data "content");
                        (js "timestamp", field data "timestamp")]])
          (view w)) w).
Proof.
  intros Hparse Htype.
  assert (Hn : isNullish data = false)
    by (eapply field_not_nullish; [exact Htype | discriminate]).
  unfold onmessage, bind, Get, ret.
  rewrite Hparse, Hn, Htype; reflexivity.
Qed.

(** C3: an inbound frame tagged [users_online] replaces the roster by the
    frame's [users], whatever the roster was before; nothing else
    changes. *)
Theorem onmessage_users_online_replaces (w : world) (event_data : jsstring)
    (data : value) :
  JSON_parse event_data = Some data ->
  field data "type" = VString (js "users_online") ->
  onmessage event_data w =
    (Normal tt, with_view (with_onlineUsers (field data "users") (view w)) w).
Proof.
  intros Hparse Htype.
  assert (Hn : isNullish data = false)
    by (eapply field_not_nullish; [exact Htype | discriminate]).
  unfold onmessage, bind, Get, ret.
  rewrite Hparse, Hn, Htype; reflexivity.
Qed.

(** C7: an inbound frame (any parsed value but [null]) whose [type] is
    neither [message] nor [users_online] completes normally and leaves the
    whole world, hence all view state, as it was. *)
Theorem onmessage_unknown_tag_ignored (w : world) (event_data : jsstring)
    (data : value) :
  JSON_parse event_data = Some data ->
  isNullish data = false ->
  field data "type" <> VString (js "message") ->
  field data "type" <> VString (js "users_online") ->
  onmessage event_data w = (Normal tt, w).
Proof.
  intros Hparse Hn Hm Hu.
  unfold onmessage, bind, Get, ret.
  rewrite Hparse, Hn.
  rewrite (strict_equals_string_false Hm), (strict_equals_string_false Hu).
  reflexivity.
Qed.

(** ** The send path *)

Lemma sendMessage_blank (w : world) :
  blank (newMessage (view w)) = true -> sendMessage w = (Normal tt, w).
Proof.
  intros H; unfold sendMessage, bind, get_state.
  rewrite truthy_trim, H; reflexivity.
Qed.

Lemma sendMessage_disconnected (w : world) :
  isConnected (view w) = false -> sendMessage w = (Normal tt, w).
Proof.
  intros H; unfold sendMessage, bind, get_state.
  rewrite H, !orb_true_r; reflexivity.
Qed.

Lemma sendMessage_sends (w : world) (sock : socket) :
  blank (newMessage (view w)) = false ->
  ws (view w) = Some sock ->
  isConnected (view w) = true ->
  sendMessage w =
    (Normal tt,
     with_view (with_newMessage [] (view w))
       (logged
          (WsSend sock
             (JSON_stringify
                (VObject [(js "type", VString (js "message"));
                          (js "content",
                           VString (trim (newMessage (view w))))])))
          w)).
Proof.
  intros Hb Hws Hc; unfold sendMessage, bind, get_state.
  rewrite truthy_trim, Hb, Hws, Hc; reflexivity.
Qed.

(** ** Registration *)

(** C6: with a username that is empty or white space only, registration
    returns at once: no request is issued and the world is unchanged,
    whether it is started by the Join button or by the Enter key. *)
Theorem handleRegister_blank_username_noop (w : world) :
  blank (username (view w)) = true ->
  handleRegister w = (Normal tt, w)
  /\ step w JoinClick = Some w
  /\ step w (UsernameKeyPress (js "Enter")) = Some w.
Proof.
  intros H.
  assert (E : handleRegister w = (Normal tt, w)).
  { unfold handleRegister, bind, get_state.
    rewrite truthy_trim, H; reflexivity. }
  unfold step; simpl; rewrite E; auto.
Qed.


(** ** What the handlers preserve *)

Section Preserves.

Variable R : world -> world -> Prop.
Context {R_preorder : PreOrder R}.

Lemma preserves_ret {A} (a : A) : preserves R (ret a).
Proof. intros w; simpl; reflexivity. Qed.

Lemma preserves_throw {A} (e : value) : preserves R (@throw A e).
Proof. intros w; simpl; reflexivity. Qed.

Lemma preserves_get_state : preserves R get_state.
Proof. intros w; simpl; reflexivity. Qed.

Lemma preserves_bind {A B} (m : M A) (k : A -> M B) :
  preserves R m -> (forall a, preserves R (k a)) -> preserves R (bind m k).
Proof.
  intros Hm Hk w; unfold bind.
  specialize (Hm w); destruct (m w) as [[a|e] w1]; simpl in *; [|exact Hm].
  etransitivity; [exact Hm | apply Hk].
Qed.

Lemma preserves_try_catch_finally {A} (body : M A) (handler : value -> M A)
    (final : M unit) :
  preserves R body -> (forall e, preserves R (handler e)) ->
  preserves R final ->
  preserves R (try_catch_finally body handler final).
Proof.
  intros Hb Hh Hf w; unfold try_catch_finally.
  specialize (Hb w); destruct (body w) as [[a|e] w1]; simpl in *.
  - specialize (Hf w1); destruct (final w1) as [[u|e] w2]; simpl in *;
      etransitivity; eauto.
  - specialize (Hh e w1); destruct (handler e w1) as [r w2]; simpl in *.
    specialize (Hf w2); destruct (final w2) as [[u|e'] w3]; simpl in *;
      (etransitivity; [exact Hb|]); etransitivity; eauto.
Qed.

Lemma preserves_Get (v : value) (k : string) : preserves R (Get v k).
Proof.
  unfold Get; destruct (isNullish v);
    [apply preserves_throw | apply preserves_ret].
Qed.

Lemma preserves_OptGet (v : value) (k : string) : preserves R (OptGet v k).
Proof.
  unfold OptGet; destruct (isNullish v);
    [apply preserves_ret | apply preserves_Get].
Qed.

End Preserves.

#[local] Instance keeps_disconnected_preorder : PreOrder keeps_disconnected.
Proof.
  split; unfold keeps_disconnected.
  - intros w; auto.
  - intros w1 w2 w3 H12 H23 H.
    destruct (H12 H) as [H2 E2]; destruct (H23 H2) as [H3 E3].
    split; congruence.
Qed.

#[local] Instance keeps_sockets_preorder : PreOrder keeps_sockets.
Proof.
  split; unfold keeps_sockets.
  - intros w; auto.
  - intros w1 w2 w3 [? ?] [? ?]; split; congruence.
Qed.

#[local] Instance keeps_gets_preorder : PreOrder keeps_gets.
Proof.
  split; unfold keeps_gets.
  - intros w; auto.
  - intros w1 w2 w3 ? ?; congruence.
Qed.

#[local] Instance grows_preorder : PreOrder grows.
Proof.
  split; unfold grows.
  - intros w; repeat split; auto; intros [H|H]; [exact H | lia].
  - intros w1 w2 w3 (L12 & C12 & W12) (L23 & C23 & W23).
    repeat split; [lia | auto |].
    intros [H|H].
    + apply W23; left; apply W12; left; exact H.
    + destruct (Nat.eq_dec (sockets w1) (sockets w2)) as [E|E].
      * apply W23; right; lia.
      * apply W23; left; apply W12; right; lia.
Qed.

Create HintDb preserves.

#[local] Hint Resolve preserves_ret preserves_throw preserves_get_state
  preserves_Get preserves_OptGet : preserves.

(** A host call or setter, checked against the relation by running it. *)
Ltac leaf :=
  unfold preserves, keeps_disconnected, keeps_sockets, keeps_gets, grows,
    alert, console_log, console_error, setCurrentUser, setUsername,
    setMessages, setNewMessage, setOnlineUsers, setWs, setIsConnected,
    setRegistering, new_WebSocket, ws_send, axios_post, axios_get,
    modify, emit, throw, ret;
  intros; simpl;
  unfold sent, opened, loads; simpl;
  repeat rewrite filter_app; simpl; repeat rewrite app_nil_r;
  intuition (auto; try congruence; try lia).

Ltac preserve :=
  repeat first
    [ solve [auto with preserves typeclass_instances]
    | apply preserves_bind; [typeclasses eauto | | intro]
    | apply preserves_try_catch_finally; [typeclasses eauto | | intro | ]
    | progress cbv beta iota
    | match goal with
      | |- preserves _ (match ?x with _ => _ end) => destruct x
      | |- preserves _ (ws_send ?o _) => destruct o; unfold ws_send
      end
    | progress unfold handleRegister, handleRegister_settled,
        loadMessages_settled, handleKeyPress, onmessage, onclose, onerror,
        sendMessage, connectWebSocket
    | solve [leaf] ].

Lemma sendMessage_keeps_disconnected : preserves keeps_disconnected sendMessage.
Proof.
  intros w H; rewrite (sendMessage_disconnected _ H); auto.
Qed.

Lemma connectWebSocket_grows (userId username : value) :
  preserves grows (connectWebSocket userId username).
Proof.
  intros w; unfold connectWebSocket, bind, grows.
  destruct (encodeURIComponent _); simpl.
  - repeat split; [lia | auto | discriminate].
  - repeat split; [lia | auto | intros [H|H]; [exact H | lia]].
Qed.

#[local] Hint Resolve sendMessage_keeps_disconnected connectWebSocket_grows
  : preserves.

(** Only the open hook raises the flag, and nothing is sent while it is
    down. *)
Lemma handler_keeps_disconnected (ev : event) :
  is_ws_open ev = false -> preserves keeps_disconnected (handler ev).
Proof.
  destruct ev; simpl; intros Hev; try discriminate; preserve.
Qed.

(** A socket is constructed only when a registration succeeds. *)
Lemma handler_keeps_sockets (ev : event) :
  is_registered ev = false -> preserves keeps_sockets (handler ev).
Proof.
  destruct ev as [| | |[user|error]| | | | | | | |]; simpl; intros Hev;
    try discriminate; preserve.
Qed.

(** [loadMessages] is called by no handler. *)
Lemma handler_keeps_gets (ev : event) : preserves keeps_gets (handler ev).
Proof.
  destruct ev; simpl; preserve.
Qed.

Lemma handler_grows (ev : event) :
  is_ws_open ev = false -> preserves grows (handler ev).
Proof.
  destruct ev; simpl; intros Hev; try discriminate; preserve.
Qed.

(** ** Runs of the event loop *)

Lemma step_inv (w w' : world) (ev : event) :
  step w ev = Some w' ->
  enabled ev w = true /\ w' = snd (handler ev (settle ev w)).
Proof.
  unfold step; destruct (enabled ev w); [|discriminate].
  intros H; inversion H; auto.
Qed.

Section Runs.

Variable R : world -> world -> Prop.
Context {R_preorder : PreOrder R}.
Variable allowed : event -> bool.
Hypothesis R_settle : forall ev w, R w (settle ev w).
Hypothesis R_handler :
  forall ev, allowed ev = true -> preserves R (handler ev).

Lemma step_preserves (w w' : world) (ev : event) :
  allowed ev = true -> step w ev = Some w' -> R w w'.
Proof.
  intros Hev Hstep; apply step_inv in Hstep as [_ ->].
  etransitivity; [apply R_settle | apply R_handler, Hev].
Qed.

Lemma run_preserves (evs : list event) (w w' : world) :
  forallb allowed evs = true -> run w evs = Some w' -> R w w'.
Proof.
  revert w; induction evs as [|ev evs IH]; simpl; intros w Hevs Hrun.
  - inversion Hrun; reflexivity.
  - apply andb_true_iff in Hevs as [Hev Hevs].
    destruct (step w ev) as [w1|] eqn:Hstep; [|discriminate].
    etransitivity; [eapply step_preserves; eauto | eauto].
Qed.

End Runs.

Lemma settle_view (ev : event) (w : world) :
  view (settle ev w) = view w /\ trace (settle ev w) = trace w
  /\ sockets (settle ev w) = sockets w.
Proof. destruct ev; simpl; auto. Qed.

Ltac settle_tac ev w :=
  destruct (settle_view ev w) as (Hv & Ht & Hs);
  unfold keeps_disconnected, keeps_sockets, keeps_gets, grows;
  rewrite ?Hv, ?Ht, ?Hs; intuition lia.

Lemma run_keeps_disconnected (evs : list event) (w w' : world) :
  forallb (fun ev => negb (is_ws_open ev)) evs = true ->
  run w evs = Some w' -> keeps_disconnected w w'.
Proof.
  apply run_preserves; [typeclasses eauto | |].
  - intros ev w0; settle_tac ev w0.
  - intros ev Hev; apply handler_keeps_disconnected.
    apply negb_true_iff, Hev.
Qed.

Lemma run_keeps_sockets (evs : list event) (w w' : world) :
  forallb (fun ev => negb (is_registered ev)) evs = true ->
  run w evs = Some w' -> keeps_sockets w w'.
Proof.
  apply run_preserves; [typeclasses eauto | |].
  - intros ev w0; settle_tac ev w0.
  - intros ev Hev; apply handler_keeps_sockets.
    apply negb_true_iff, Hev.
Qed.

Lemma run_keeps_gets (evs : list event) (w w' : world) :
  run w evs = Some w' -> keeps_gets w w'.
Proof.
  apply (@run_preserves keeps_gets _ (fun _ => true)).
  - intros ev w0; settle_tac ev w0.
  - intros ev _; apply handler_keeps_gets.
  - apply forallb_forall; auto.
Qed.

(** The socket invariant holds in every reachable world. *)
Lemma grows_invariant (w w' : world) :
  grows w w' -> socket_invariant w -> socket_invariant w'.
Proof.
  unfold grows, socket_invariant.
  intros (L & C & W) [I1 I2]; split.
  - intros H; specialize (I1 (C H)); lia.
  - intros H; apply W.
    destruct (Nat.eq_dec (sockets w) 0) as [E|E]; [right; lia | left].
    apply I2; lia.
Qed.

Lemma step_invariant (w w' : world) (ev : event) :
  socket_invariant w -> step w ev = Some w' -> socket_invariant w'.
Proof.
  intros Hinv Hstep.
  destruct (is_ws_open ev) eqn:Hev.
  - destruct ev; try discriminate.
    apply step_inv in Hstep as [Hen ->]; simpl in *.
    apply Nat.ltb_lt in Hen.
    destruct Hinv as [I1 I2]; split; simpl; [intros _; lia | exact I2].
  - apply grows_invariant with w; [|exact Hinv].
    apply step_inv in Hstep as [_ ->].
    transitivity (settle ev w); [settle_tac ev w|].
    apply handler_grows, Hev.
Qed.

Lemma run_invariant (evs : list event) (w w' : world) :
  socket_invariant w -> run w evs = Some w' -> socket_invariant w'.
Proof.
  revert w; induction evs as [|ev evs IH]; simpl; intros w Hinv Hrun.
  - inversion Hrun; subst; exact Hinv.
  - destruct (step w ev) as [w1|] eqn:Hstep; [|discriminate].
    eauto using step_invariant.
Qed.

Lemma reachable_invariant (w : world) : reachable w -> socket_invariant w.
Proof.
  intros [evs Hrun]; apply (@run_invariant evs mounted); [|exact Hrun].
  split; simpl; [discriminate | lia].
Qed.

Lemma reachable_connected_has_socket (w : world) :
  reachable w -> isConnected (view w) = true ->
  exists sock, ws (view w) = Some sock.
Proof.
  intros Hr Hc; destruct (reachable_invariant Hr) as [I1 I2].
  destruct (ws (view w)) as [sock|] eqn:E; [eauto|].
  exfalso; apply I2; auto.
Qed.

(** ** Sending *)

(** C2: with input [hello] and the channel connected, the send operation
    makes exactly one call to [ws.send], with the frame
    [{type: "message", content: "hello"}], and clears the input field; with
    the channel disconnected it does nothing. *)
Theorem sendMessage_hello (w : world) :
  newMessage (view w) = js "hello" ->
  (reachable w -> isConnected (view w) = true ->
   exists sock,
     ws (view w) = Some sock
     /\ sendMessage w =
          (Normal tt,
           with_view (with_newMessage [] (view w))
             (logged
                (WsSend sock
                   (JSON_stringify
                      (VObject [(js "type", VString (js "message"));
                                (js "content", VString (js "hello"))])))
                w)))
  /\ (isConnected (view w) = false -> sendMessage w = (Normal tt, w)).
Proof.
  intros Hin; split.
  - intros Hr Hc.
    destruct (reachable_connected_has_socket Hr Hc) as [sock Hws].
    exists sock; split; [exact Hws|].
    rewrite (@sendMessage_sends w sock); [rewrite Hin; reflexivity | | |];
      [rewrite Hin; reflexivity | exact Hws | exact Hc].
  - apply sendMessage_disconnected.
Qed.

(** C10: with an input that is empty or white space only the send
    operation does nothing, connected or not; otherwise, when connected,
    the frame it sends carries the trimmed input. *)
Theorem sendMessage_trims (w : world) :
  (blank (newMessage (view w)) = true -> sendMessage w = (Normal tt, w))
  /\ (blank (newMessage (view w)) = false ->
      reachable w -> isConnected (view w) = true ->
      exists sock,
        ws (view w) = Some sock
        /\ sendMessage w =
             (Normal tt,
              with_view (with_newMessage [] (view w))
                (logged
                   (WsSend sock
                      (JSON_stringify
                         (VObject
                            [(js "type", VString (js "message"));
                             (js "content",
                              VString (trim (newMessage (view w))))])))
                   w))).
Proof.
  split; [apply sendMessage_blank|].
  intros Hb Hr Hc.
  destruct (reachable_connected_has_socket Hr Hc) as [sock Hws].
  exists sock; split; [exact Hws | apply sendMessage_sends; assumption].
Qed.

(** ** The channel life cycle *)

(** C5: when the registration request succeeds with a user whose [id]
    and [username] are strings, one socket is constructed, on the URL made
    of that id and of that username (URI-encoded), and it becomes [ws].
    The flag is down when the component starts, and in every run from the
    start without an open event it is still down and nothing has been
    sent. *)
Theorem registration_opens_channel (w : world) (user : value)
    (id username encoded : jsstring) :
  field user "id" = VString id ->
  field user "username" = VString username ->
  encodeURIComponent username = Some encoded ->
  handleRegister_settled (Fulfilled user) w =
    (Normal tt,
     with_view
       (with_registering false
          (with_ws (Some (sockets w)) (with_currentUser user (view w))))
       (with_sockets (S (sockets w))
          (logged
             (NewWebSocket (sockets w)
                (WS_URL ++ js "/api/ws/" ++ id ++ js "?username=" ++ encoded))
             w)))
  /\ isConnected initial_state = false
  /\ forall evs w',
       forallb (fun ev => negb (is_ws_open ev)) evs = true ->
       run mounted evs = Some w' ->
       isConnected (view w') = false /\ sent (trace w') = [].
Proof.
  intros Hid Hname Henc.
  assert (Hn : isNullish user = false)
    by (eapply field_not_nullish; [exact Hid | discriminate]).
  split; [|split; [reflexivity|]].
  - unfold handleRegister_settled, try_catch_finally, connectWebSocket,
      bind, Get, ret.
    simpl; rewrite Hn, Hid, Hname; simpl; rewrite Henc; reflexivity.
  - intros evs w' Hevs Hrun.
    apply (@run_keeps_disconnected evs mounted w' Hevs Hrun); reflexivity.
Qed.

(** ** Failures *)

(** C8, amended: when the registration request fails with an error
    object, one alert is shown: the [detail] of the response when there is
    one and it is truthy, the text [Registration failed] otherwise.  The
    current user and [ws] are unchanged and no socket is constructed; the
    [registering] flag is down again, so that with a username that is not
    blank the Join button is enabled and registering again issues the
    request again. *)
Theorem registration_failure_alerts (w : world) (error : value) :
  isNullish error = false ->
  let shown := if truthy (detail_of error) then detail_of error
               else VString (js "Registration failed") in
  let w' := with_view (with_registering false (view w))
              (logged (Alert (ToString shown)) w) in
  handleRegister_settled (Rejected error) w = (Normal tt, w')
  /\ currentUser (view w') = currentUser (view w)
  /\ ws (view w') = ws (view w)
  /\ opened (trace w') = opened (trace w)
  /\ (blank (username (view w)) = false ->
      join_disabled (view w') = false
      /\ fst (handleRegister w') = Normal tt
      /\ trace (snd (handleRegister w')) =
           trace w' ++ [AxiosPost (API ++ js "/register")
                          (VObject [(js "username",
                                     VString (trim (username (view w))))])]).
Proof.
  intros Hn shown w'; subst shown w'.
  split; [|split; [reflexivity|split; [reflexivity|split]]];
    [| |intros Hb; split; [|split]].
  - unfold handleRegister_settled, try_catch_finally, bind, OptGet, Get,
      detail_of, throw, ret, alert.
    rewrite Hn.
    destruct (isNullish (field error "response")); [reflexivity|].
    destruct (isNullish (field (field error "response") "data"));
      reflexivity.
  - unfold opened; simpl; rewrite filter_app; simpl; apply app_nil_r.
  - unfold join_disabled.
    cbn [view username registering with_view with_registering logged].
    rewrite truthy_trim, Hb; reflexivity.
  - unfold handleRegister, bind, get_state.
    cbn [view username with_view with_registering logged].
    rewrite truthy_trim, Hb; reflexivity.
  - unfold handleRegister, bind, get_state.
    cbn [view username with_view with_registering logged].
    rewrite truthy_trim, Hb; reflexivity.
Qed.

(** C9: when the bulk load fails the error is written to the console and
    nothing else happens: the world is otherwise unchanged (message list
    included, no alert, no request).  If this is the first thing that
    happens after the mount, the message list is the empty one.  No run
    of the event loop issues a [GET] again. *)
Theorem loadMessages_failure_logged_only (w : world) (error : value) :
  loadMessages_settled (Rejected error) w =
    (Normal tt, logged (ConsoleError (js "Failed to load messages:") error) w)
  /\ option_map (fun w1 => messages (view w1))
       (step mounted (MessagesSettled (Rejected error))) = Some []
  /\ forall evs w',
       run w evs = Some w' -> loads (trace w') = loads (trace w).
Proof.
  split; [reflexivity|split; [reflexivity|]].
  intros evs w' Hrun; apply (@run_keeps_gets evs w w' Hrun).
Qed.

End Properties.

(** * More about the component *)

Section More.

Context {runtime : Runtime}.

(** ** The socket address (lines 5-7) *)

Lemma replace_prefix (pattern replacement s rest : jsstring) :
  strip_prefix pattern s = Some rest ->
  replace pattern replacement s = replacement ++ rest.
Proof.
  intros H; destruct s; simpl; rewrite H; reflexivity.
Qed.

Lemma replace_absent (pattern replacement s : jsstring) :
  occurs pattern s = false -> replace pattern replacement s = s.
Proof.
  induction s as [|c s IH]; simpl.
  - destruct (strip_prefix pattern []); [discriminate | reflexivity].
  - destruct (strip_prefix pattern (c :: s)); [discriminate|].
    intros H; rewrite IH; auto.
Qed.

(** X1: behind an [https://] address the socket address is the same with
    [wss://], provided [http://] does not occur further on. *)
Theorem WS_URL_secure (host : jsstring) :
  BACKEND_URL = js "https://" ++ host ->
  occurs (js "http://") host = false ->
  WS_URL = js "wss://" ++ host.
Proof.
  intros Hurl Hhost; unfold WS_URL; rewrite Hurl.
  rewrite (@replace_prefix (js "https://") (js "wss://") _ host);
    [|reflexivity].
  apply replace_absent; exact Hhost.
Qed.

(** X2: behind an [http://] address the socket address is the same with
    [ws://], provided [https://] does not occur further on. *)
Theorem WS_URL_plain (host : jsstring) :
  BACKEND_URL = js "http://" ++ host ->
  occurs (js "https://") host = false ->
  WS_URL = js "ws://" ++ host.
Proof.
  intros Hurl Hhost; unfold WS_URL; rewrite Hurl.
  rewrite (@replace_absent (js "https://") (js "wss://"));
    [|exact Hhost].
  apply replace_prefix; reflexivity.
Qed.

(** X3: an address in which neither scheme occurs is used as it is. *)
Theorem WS_URL_other :
  occurs (js "https://") BACKEND_URL = false ->
  occurs (js "http://") BACKEND_URL = false ->
  WS_URL = BACKEND_URL.
Proof.
  intros Hs H; unfold WS_URL.
  rewrite (@replace_absent (js "https://") (js "wss://") _ Hs).
  apply replace_absent, H.
Qed.

(** ** encodeURIComponent (line 62) *)

Ltac divmod := zify; Z.to_euclidean_division_equations; lia.

Ltac bools :=
  repeat match goal with
         | H : (_ && _) = true |- _ => apply andb_true_iff in H as [? ?]
         | H : (_ || _) = false |- _ => apply orb_false_iff in H as [? ?]
         | H : (_ && _) = false |- _ => apply andb_false_iff in H
         | H : (_ <=? _) = true |- _ => apply N.leb_le in H
         | H : (_ <=? _) = false |- _ => apply N.leb_gt in H
         | H : (_ <? _) = true |- _ => apply N.ltb_lt in H
         | H : (_ <? _) = false |- _ => apply N.ltb_ge in H
         | H : (_ =? _) = true |- _ => apply N.eqb_eq in H
         | H : (_ =? _) = false |- _ => apply N.eqb_neq in H
         end.

Lemma hex_digit_unreserved (n : N) :
  n < 16 -> isUnreserved (hex_digit n) = true.
Proof.
  intros H.
  assert (Hin : In n (map N.of_nat (seq 0 16))).
  { rewrite <- (N2Nat.id n); apply in_map, in_seq; lia. }
  revert Hin; generalize n; apply Forall_forall.
  repeat constructor.
Qed.

Lemma percent_safe (byte : N) :
  byte < 256 -> forallb isUriSafe (percent byte) = true.
Proof.
  intros H; unfold percent, isUriSafe; simpl forallb.
  rewrite !hex_digit_unreserved by divmod; reflexivity.
Qed.

Lemma percents_safe (bytes : list N) :
  Forall (fun b => b < 256) bytes ->
  forallb isUriSafe (List.concat (map percent bytes)) = true.
Proof.
  induction 1 as [|b bytes Hb _ IH]; [reflexivity|].
  change (forallb isUriSafe (percent b ++ List.concat (map percent bytes))
          = true).
  rewrite forallb_app, percent_safe, IH; auto.
Qed.

Lemma utf8_bytes (cp : N) :
  cp < 0x110000 -> Forall (fun b => b < 256) (utf8 cp).
Proof.
  intros H; unfold utf8.
  destruct (cp <? 0x80) eqn:H1; [|destruct (cp <? 0x800) eqn:H2;
    [|destruct (cp <? 0x10000) eqn:H3]]; bools;
    repeat constructor; divmod.
Qed.

(** Lists are taken two steps at a time, as [encodeURIComponent] reads a
    surrogate pair. *)
Lemma two_step_induction (P : jsstring -> Prop) :
  P [] ->
  (forall c, P [c]) ->
  (forall c d s, P s -> P (d :: s) -> P (c :: d :: s)) ->
  forall s, P s.
Proof.
  intros H0 H1 H2 s.
  assert (H : P s /\ forall c, P (c :: s)); [|apply H].
  induction s as [|d s [IHs IHc]]; [auto|].
  split; [apply IHc | intros c; apply H2; auto].
Qed.

Lemma encode_one_safe (c : code_unit) (e : jsstring) :
  c < 0x10000 -> encodeURIComponent [c] = Some e ->
  forallb isUriSafe e = true.
Proof.
  intros Hc; simpl.
  destruct (isUnreserved c) eqn:Hu.
  - intros H; inversion H; subst; simpl; unfold isUriSafe; rewrite Hu.
    reflexivity.
  - destruct (isLowSurrogate c); [discriminate|].
    destruct (isHighSurrogate c); [discriminate|].
    intros H; inversion H; subst; rewrite app_nil_r.
    apply percents_safe, utf8_bytes; lia.
Qed.

(** X4: whatever the name, its encoding is made of unreserved characters
    and percent signs only: it cannot end the query parameter or start
    another one. *)
Theorem encodeURIComponent_safe (s e : jsstring) :
  code_units s ->
  encodeURIComponent s = Some e ->
  forallb isUriSafe e = true.
Proof.
  revert e; induction s as [|c|c d s IHs IHd] using two_step_induction;
    intros e Hs.
  - intros H; inversion H; reflexivity.
  - inversion Hs; subst; apply encode_one_safe; assumption.
  - assert (Hc : c < 0x10000) by (inversion Hs; assumption).
    assert (Hds : code_units (d :: s)) by (inversion Hs; assumption).
    assert (Hss : code_units s) by (inversion Hds; assumption).
    assert (Hd : d < 0x10000) by (inversion Hds; assumption).
    change (encodeURIComponent (c :: d :: s)) with
      (if isUnreserved c
       then option_map (cons c) (encodeURIComponent (d :: s))
       else if isLowSurrogate c then None
       else if isHighSurrogate c then
         if isLowSurrogate d then
           option_map
             (app (List.concat (map percent
                (utf8 ((c - 0xD800) * 0x400 + (d - 0xDC00) + 0x10000)))))
             (encodeURIComponent s)
         else None
       else option_map (app (List.concat (map percent (utf8 c))))
                       (encodeURIComponent (d :: s))).
    destruct (isUnreserved c) eqn:Hu.
    + destruct (encodeURIComponent (d :: s)) as [e'|] eqn:E; [|discriminate].
      intros H; inversion H; subst; simpl.
      unfold isUriSafe at 1; rewrite Hu; simpl; apply IHd; auto.
    + destruct (isLowSurrogate c) eqn:Hl; [discriminate|].
      destruct (isHighSurrogate c) eqn:Hh.
      * destruct (isLowSurrogate d) eqn:Hld; [|discriminate].
        destruct (encodeURIComponent s) as [e'|] eqn:E; [|discriminate].
        intros H; inversion H; subst.
        rewrite forallb_app, (IHs e' Hss eq_refl), andb_true_r.
        apply percents_safe, utf8_bytes.
        unfold isHighSurrogate, isLowSurrogate in *; bools; lia.
      * destruct (encodeURIComponent (d :: s)) as [e'|] eqn:E;
          [|discriminate].
        intros H; inversion H; subst.
        rewrite forallb_app, (IHd e' Hds eq_refl), andb_true_r.
        apply percents_safe, utf8_bytes; lia.
Qed.

Lemma unreserved_not_surrogate (c : code_unit) :
  isUnreserved c = true ->
  isLowSurrogate c = false /\ isHighSurrogate c = false.
Proof.
  unfold isUnreserved, isLowSurrogate, isHighSurrogate; intros H.
  split; apply andb_false_iff;
    destruct (0xDC00 <=? c) eqn:E1, (0xD800 <=? c) eqn:E2; auto;
    exfalso; bools;
    repeat match goal with
           | H : (_ || _) = true |- _ => apply orb_true_iff in H as [H|H]
           end; bools; lia.
Qed.

(** X5: [encodeURIComponent] raises its URIError exactly on the strings
    with a lone surrogate. *)
Theorem encodeURIComponent_fails_iff (s : jsstring) :
  encodeURIComponent s = None <-> isWellFormed s = false.
Proof.
  induction s as [|c|c d s IHs IHd] using two_step_induction.
  - simpl; split; discriminate.
  - simpl.
    destruct (isUnreserved c) eqn:Hu.
    + destruct (unreserved_not_surrogate c Hu) as [-> ->].
      simpl; split; discriminate.
    + destruct (isLowSurrogate c); [tauto|].
      destruct (isHighSurrogate c); [tauto|].
      simpl; split; discriminate.
  - change (encodeURIComponent (c :: d :: s)) with
      (if isUnreserved c
       then option_map (cons c) (encodeURIComponent (d :: s))
       else if isLowSurrogate c then None
       else if isHighSurrogate c then
         if isLowSurrogate d then
           option_map
             (app (List.concat (map percent
                (utf8 ((c - 0xD800) * 0x400 + (d - 0xDC00) + 0x10000)))))
             (encodeURIComponent s)
         else None
       else option_map (app (List.concat (map percent (utf8 c))))
                       (encodeURIComponent (d :: s))).
    change (isWellFormed (c :: d :: s)) with
      (if isLowSurrogate c then false
       else if isHighSurrogate c then isLowSurrogate d && isWellFormed s
       else isWellFormed (d :: s)).
    destruct (isUnreserved c) eqn:Hu.
    + destruct (unreserved_not_surrogate c Hu) as [-> ->].
      rewrite <- IHd.
      destruct (encodeURIComponent (d :: s)); simpl; split; intros H;
        first [reflexivity | discriminate H].
    + destruct (isLowSurrogate c); [tauto|].
      destruct (isHighSurrogate c).
      * destruct (isLowSurrogate d); [|tauto].
        simpl; rewrite <- IHs.
        destruct (encodeURIComponent s); simpl; split; intros H;
        first [reflexivity | discriminate H].
      * rewrite <- IHd.
        destruct (encodeURIComponent (d :: s)); simpl; split; intros H;
        first [reflexivity | discriminate H].
Qed.

(** X6: a name made of unreserved characters (letters, digits and
    [-_.!~*'()]) is its own encoding. *)
Theorem encodeURIComponent_unreserved (s : jsstring) :
  forallb isUnreserved s = true -> encodeURIComponent s = Some s.
Proof.
  induction s as [|c s IH]; [reflexivity|].
  simpl; intros H; apply andb_true_iff in H as [Hc Hs].
  rewrite Hc, (IH Hs); reflexivity.
Qed.

(** ** Registration (lines 42-59) *)

(** X7: a request that succeeds can still end in the failure alert.  When
    the response data is [null] or [undefined], or when its username is a
    string with a lone surrogate (one that [encodeURIComponent] rejects),
    the exception raised in the [try] block is caught: the handler
    completes normally, the alert says [Registration failed], no socket is
    constructed and [ws] is unchanged, while the response data has
    already been stored as current user. *)
Theorem registration_success_paths (w : world) (user : value)
    (name : jsstring) :
  isNullish user = true
  \/ (field user "username" = VString name
      /\ encodeURIComponent name = None) ->
  handleRegister_settled (Fulfilled user) w =
    (Normal tt,
     with_view
       (with_registering false (with_currentUser user (view w)))
       (logged (Alert (js "Registration failed")) w)).
Proof.
  unfold handleRegister_settled, try_catch_finally, connectWebSocket, bind,
    Get, ret.
  intros [Hn|[Hname Henc]].
  - simpl; rewrite Hn; reflexivity.
  - assert (Hn : isNullish user = false)
      by (eapply field_not_nullish; [exact Hname | discriminate]).
    simpl; rewrite Hn, Hname; simpl; rewrite Henc; reflexivity.
Qed.

(** X8: whatever the outcome of the request, the [registering] flag is
    down afterwards (the [finally] block), so that the Join button is
    disabled exactly when the username is blank. *)
Theorem registration_always_clears_flag (w : world) (o : settled value) :
  registering (view (snd (handleRegister_settled o w))) = false
  /\ join_disabled (view (snd (handleRegister_settled o w)))
     = blank (username (view w)).
Proof.
  assert (Hj : forall s, registering s = false ->
                 join_disabled s = blank (username s)).
  { intros s Hr; unfold join_disabled.
    rewrite truthy_trim, Hr, negb_involutive, orb_false_r; reflexivity. }
  destruct o as [user|error].
  - unfold handleRegister_settled, try_catch_finally, connectWebSocket,
      bind, Get, ret.
    simpl; destruct (isNullish user);
      [|simpl; destruct (encodeURIComponent _)];
      (split; [reflexivity|rewrite Hj by reflexivity; reflexivity]).
  - unfold handleRegister_settled, try_catch_finally, bind, OptGet, Get,
      throw, ret, alert.
    destruct (isNullish error) eqn:Hn.
    + split; [reflexivity|rewrite Hj by reflexivity; reflexivity].
    + destruct (isNullish (field error "response"));
        [|destruct (isNullish (field (field error "response") "data"))];
        (split; [reflexivity|rewrite Hj by reflexivity; reflexivity]).
Qed.

(** X9: with a username that is not blank, starting a registration issues
    one request carrying the trimmed username and raises the [registering]
    flag, which disables the Join button; the handler itself does not look
    at the flag. *)
Theorem handleRegister_posts (w : world) :
  blank (username (view w)) = false ->
  handleRegister w =
    (Normal tt,
     with_pending_post (S (pending_post w))
       (logged
          (AxiosPost (API ++ js "/register")
             (VObject [(js "username", VString (trim (username (view w))))]))
          (with_view (with_registering true (view w)) w)))
  /\ join_disabled (view (snd (handleRegister w))) = true.
Proof.
  intros Hb.
  assert (E : handleRegister w =
    (Normal tt,
     with_pending_post (S (pending_post w))
       (logged
          (AxiosPost (API ++ js "/register")
             (VObject [(js "username", VString (trim (username (view w))))]))
          (with_view (with_registering true (view w)) w)))).
  { unfold handleRegister, bind, get_state.
    rewrite truthy_trim, Hb; reflexivity. }
  split; [exact E|].
  rewrite E; unfold join_disabled; simpl; apply orb_true_r.
Qed.

(** ** The receive path (lines 69-83) *)

(** X10: the message hook throws exactly when the text is not JSON
    (SyntaxError) or is the JSON text of [null] (TypeError); the world is
    then as it was. *)
Theorem onmessage_throws (w : world) (event_data : jsstring) :
  match JSON_parse event_data with
  | None => onmessage event_data w = (Throw SyntaxError, w)
  | Some data =>
      if isNullish data
      then onmessage event_data w = (Throw TypeError, w)
      else fst (onmessage event_data w) = Normal tt
  end.
Proof.
  unfold onmessage, bind, Get, ret, throw.
  destruct (JSON_parse event_data) as [data|]; [|reflexivity].
  destruct (isNullish data); [reflexivity|].
  destruct (strict_equals_string (field data "type") (js "message"));
    [reflexivity|].
  destruct (strict_equals_string (field data "type") (js "users_online"));
    reflexivity.
Qed.

(** X11: whatever arrives, the message hook makes no host call and leaves
    the current user, both input fields, [ws] and the two flags alone; of
    the message list and the roster it changes at most one. *)
Theorem onmessage_footprint (w : world) (event_data : jsstring) :
  let w' := snd (onmessage event_data w) in
  trace w' = trace w
  /\ sockets w' = sockets w
  /\ currentUser (view w') = currentUser (view w)
  /\ username (view w') = username (view w)
  /\ newMessage (view w') = newMessage (view w)
  /\ ws (view w') = ws (view w)
  /\ isConnected (view w') = isConnected (view w)
  /\ registering (view w') = registering (view w)
  /\ (messages (view w') = messages (view w)
      \/ onlineUsers (view w') = onlineUsers (view w)).
Proof.
  unfold onmessage, bind, Get, ret, throw.
  destruct (JSON_parse event_data) as [data|]; simpl; [|tauto].
  destruct (isNullish data); simpl; [tauto|].
  destruct (strict_equals_string (field data "type") (js "message"));
    simpl; [tauto|].
  destruct (strict_equals_string (field data "type") (js "users_online"));
    simpl; tauto.
Qed.

(** ** The send path (lines 98-107, 261-265) *)

(** X12: a send that has completed is not repeated: sending again right
    after it does nothing, because the input has been cleared or the first
    attempt already did nothing. *)
Theorem sendMessage_twice (w : world) :
  fst (sendMessage w) = Normal tt ->
  sendMessage (snd (sendMessage w)) = (Normal tt, snd (sendMessage w)).
Proof.
  intros _.
  destruct (blank (newMessage (view w))) eqn:Hb.
  { rewrite (sendMessage_blank _ Hb); simpl.
    apply sendMessage_blank, Hb. }
  destruct (isConnected (view w)) eqn:Hc.
  2:{ rewrite (sendMessage_disconnected _ Hc); simpl.
      apply sendMessage_disconnected, Hc. }
  destruct (ws (view w)) as [sock|] eqn:Hws.
  - rewrite (sendMessage_sends _ Hb Hws Hc); simpl.
    apply sendMessage_blank; reflexivity.
  - assert (E : sendMessage w = (Normal tt, w)).
    { unfold sendMessage, bind, get_state; rewrite Hws.
      rewrite orb_true_r; reflexivity. }
    rewrite E; simpl; exact E.
Qed.

(** X13: in every reachable world the Send button tells the truth: when
    it is disabled a send does nothing, and when it is enabled a send puts
    exactly one frame, with the trimmed input, on [ws] and clears the
    input. *)
Theorem send_button_agrees (w : world) :
  reachable w ->
  if send_disabled (view w) then sendMessage w = (Normal tt, w)
  else
    exists sock,
      ws (view w) = Some sock
      /\ sendMessage w =
           (Normal tt,
            with_view (with_newMessage [] (view w))
              (logged
                 (WsSend sock
                    (JSON_stringify
                       (VObject
                          [(js "type", VString (js "message"));
                           (js "content",
                            VString (trim (newMessage (view w))))])))
                 w)).
Proof.
  intros Hr; unfold send_disabled; rewrite truthy_trim, negb_involutive.
  destruct (blank (newMessage (view w))) eqn:Hb; simpl.
  - apply sendMessage_blank, Hb.
  - destruct (isConnected (view w)) eqn:Hc; simpl.
    + destruct (reachable_connected_has_socket Hr Hc) as [sock Hws].
      exists sock; split; [exact Hws | apply sendMessage_sends; assumption].
    + apply sendMessage_disconnected, Hc.
Qed.

(** ** What every run keeps *)

Lemma trimStart_head (s t : jsstring) (c : code_unit) :
  trimStart s = c :: t -> isWhiteSpace c = false.
Proof.
  induction s as [|d s IH]; simpl; [discriminate|].
  destruct (isWhiteSpace d) eqn:E; [exact IH|].
  intros H; inversion H; subst; exact E.
Qed.

(** What [trim] returns, when it is not empty, neither starts nor ends
    with white space. *)
Lemma trim_trimmed (s : jsstring) : blank s = false -> trimmed (trim s) = true.
Proof.
  intros Hb.
  assert (Hne : trim s <> []).
  { intros E; apply trim_nil_iff in E; congruence. }
  revert Hne; unfold trim, trimEnd.
  destruct (trimStart_suffix (rev (trimStart s))) as [p [Hp _]].
  destruct (trimStart (rev (trimStart s))) as [|c u] eqn:Eu;
    [intros H; contradiction H; reflexivity|].
  intros _; apply trimStart_head in Eu as Hc.
  assert (Ht : trimStart s = (rev u ++ [c]) ++ rev p).
  { rewrite <- (rev_involutive (trimStart s)), Hp, rev_app_distr.
    reflexivity. }
  simpl rev; unfold trimmed.
  destruct (rev u) as [|x y] eqn:Er; simpl app.
  - simpl; rewrite Hc; reflexivity.
  - change (negb (isWhiteSpace x)
            && negb (isWhiteSpace (last ((x :: y) ++ [c]) x)) = true).
    rewrite (trimStart_head s Ht), last_last, Hc; reflexivity.
Qed.

#[local] Instance invariant_step_preorder (P : world -> Prop) :
  PreOrder (invariant_step P).
Proof.
  split; unfold invariant_step; [intros w; auto | intros w1 w2 w3; auto].
Qed.

#[local] Instance extends_preorder : PreOrder extends.
Proof.
  split; unfold extends.
  - intros w; exists []; symmetry; apply app_nil_r.
  - intros w1 w2 w3 [m1 H1] [m2 H2]; exists (m1 ++ m2).
    rewrite H2, H1, app_assoc; reflexivity.
Qed.

#[local] Instance keeps_user_preorder : PreOrder keeps_user.
Proof.
  split; unfold keeps_user; [intros w; auto | intros w1 w2 w3; congruence].
Qed.

#[local] Instance more_keeps_gets_preorder : PreOrder keeps_gets.
Proof.
  split; unfold keeps_gets; [intros w; auto | intros w1 w2 w3; congruence].
Qed.

Create HintDb kept.

#[local] Hint Resolve preserves_ret preserves_throw preserves_get_state
  preserves_Get preserves_OptGet : kept.

Ltac run_primitive :=
  unfold preserves, alert, console_log, console_error, setCurrentUser,
    setUsername, setMessages, setNewMessage, setOnlineUsers, setWs,
    setIsConnected, setRegistering, new_WebSocket, ws_send, axios_post,
    axios_get, modify, emit, throw, ret;
  intros; simpl.

Ltac preserve_with leaf :=
  repeat first
    [ solve [auto with kept typeclass_instances]
    | apply preserves_bind; [typeclasses eauto | | intro]
    | apply preserves_try_catch_finally; [typeclasses eauto | | intro | ]
    | progress cbv beta iota
    | match goal with
      | |- preserves _ (match ?x with _ => _ end) => destruct x
      | |- preserves _ (ws_send ?o _) => destruct o; unfold ws_send
      end
    | progress unfold handleRegister, handleRegister_settled,
        loadMessages_settled, handleKeyPress, onopen, onmessage, onclose,
        onerror, sendMessage, connectWebSocket
    | solve [run_primitive; leaf] ].

Ltac settled_world ev w :=
  destruct (settle_view ev w) as (Hv & Ht & Hs);
  unfold invariant_step, extends, keeps_user, keeps_gets, posts_ok, sends_ok,
    ws_latest;
  rewrite ?Hv, ?Ht, ?Hs.

(** *** The message list *)

Lemma handler_extends (ev : event) :
  is_loaded ev = false -> preserves extends (handler ev).
Proof.
  destruct ev as [| | | |[data|error]| | | | | | |]; simpl; intros Hev;
    try discriminate;
    preserve_with ltac:(unfold extends; simpl;
                        first [exists []; symmetry; apply app_nil_r
                              | eexists; reflexivity]).
Qed.

(** X14: as long as no bulk load arrives, the message list only grows at
    its end: no entry is removed, replaced or moved by any event. *)
Theorem messages_append_only (evs : list event) (w w' : world) :
  forallb (fun ev => negb (is_loaded ev)) evs = true ->
  run w evs = Some w' ->
  exists more, messages (view w') = messages (view w) ++ more.
Proof.
  apply (@run_preserves _ extends _ (fun ev => negb (is_loaded ev))).
  - intros ev w0; settled_world ev w0.
    exists []; symmetry; apply app_nil_r.
  - intros ev Hev; apply handler_extends, negb_true_iff, Hev.
Qed.

Lemma onmessage_appends_entry (w : world) (event_data : jsstring)
    (data : value) :
  JSON_parse event_data = Some data ->
  field data "type" = VString (js "message") ->
  onmessage event_data w =
    (Normal tt,
     with_view (with_messages (messages (view w) ++ [entry_of data]) (view w))
       w).
Proof.
  intros Hparse Htype.
  assert (Hn : isNullish data = false)
    by (eapply field_not_nullish; [exact Htype | discriminate]).
  unfold onmessage, bind, Get, ret.
  rewrite Hparse, Hn, Htype; reflexivity.
Qed.

(** X15: message frames delivered one after the other on a socket are
    appended in their order of arrival, one entry each, duplicates
    included. *)
Theorem messages_in_arrival_order (frames : list (jsstring * value))
    (sock : socket) (w : world) :
  (sock < sockets w)%nat ->
  Forall (fun f => JSON_parse (fst f) = Some (snd f)
                   /\ field (snd f) "type" = VString (js "message"))
         frames ->
  run w (map (fun f => WsMessage sock (fst f)) frames) =
    Some (with_view
            (with_messages
               (messages (view w) ++ map (fun f => entry_of (snd f)) frames)
               (view w))
            w).
Proof.
  intros Hsock Hframes; revert w Hsock.
  induction Hframes as [|[text data] frames [Hparse Htype] _ IH];
    intros w Hsock.
  - simpl; rewrite app_nil_r; destruct w as [[] ? ? ? ?]; reflexivity.
  - simpl in Hparse, Htype.
    simpl map; simpl run; unfold step; simpl enabled.
    apply Nat.ltb_lt in Hsock as Hen; rewrite Hen.
    simpl handler; simpl settle.
    rewrite (onmessage_appends_entry w _ Hparse Htype); simpl snd.
    rewrite IH by exact Hsock.
    simpl; rewrite <- app_assoc; reflexivity.
Qed.

(** X16: a bulk load that arrives after a message frame overwrites the
    list, so the entry of that frame is gone; in the other order the entry
    follows the loaded messages. *)
Theorem bulk_load_overwrites (w : world) (sock : socket)
    (event_data : jsstring) (data : value) (loaded : list value) :
  (sock < sockets w)%nat ->
  (0 < pending_get w)%nat ->
  JSON_parse event_data = Some data ->
  field data "type" = VString (js "message") ->
  option_map (fun w' => messages (view w'))
    (run w [WsMessage sock event_data; MessagesSettled (Fulfilled loaded)])
  = Some loaded
  /\ option_map (fun w' => messages (view w'))
       (run w [MessagesSettled (Fulfilled loaded); WsMessage sock event_data])
     = Some (loaded ++ [entry_of data]).
Proof.
  intros Hsock Hget Hparse Htype.
  apply Nat.ltb_lt in Hsock; apply Nat.ltb_lt in Hget.
  split; simpl run; unfold step; simpl enabled.
  - rewrite Hsock; simpl handler; simpl settle.
    rewrite (onmessage_appends_entry w _ Hparse Htype); simpl.
    rewrite Hget; reflexivity.
  - rewrite Hget; simpl.
    rewrite Hsock; simpl.
    rewrite (onmessage_appends_entry _ _ Hparse Htype); reflexivity.
Qed.

(** *** The current user *)

Lemma handler_keeps_user (ev : event) :
  is_registered ev = false -> preserves keeps_user (handler ev).
Proof.
  destruct ev as [| | |[user|error]| | | | | | | |]; simpl; intros Hev;
    try discriminate;
    preserve_with ltac:(unfold keeps_user; reflexivity).
Qed.

(** X17: only a registration request that succeeds changes the current
    user, and with it the screen that is shown; in particular the login
    screen stays until then. *)
Theorem current_user_stable (evs : list event) (w w' : world) :
  forallb (fun ev => negb (is_registered ev)) evs = true ->
  run w evs = Some w' ->
  currentUser (view w') = currentUser (view w)
  /\ login_screen (view w') = login_screen (view w).
Proof.
  intros Hevs Hrun.
  assert (H : keeps_user w w').
  { revert Hevs Hrun.
    apply (@run_preserves _ keeps_user _
             (fun ev => negb (is_registered ev))).
    - intros ev w0; settled_world ev w0; reflexivity.
    - intros ev Hev; apply handler_keeps_user, negb_true_iff, Hev. }
  unfold keeps_user in H; unfold login_screen; rewrite H; auto.
Qed.

(** *** The requests and the frames *)

Lemma Forall_snoc {A} (P : A -> Prop) (l : list A) (x : A) :
  Forall P l -> P x -> Forall P (l ++ [x]).
Proof.
  intros Hl Hx; apply Forall_app; split; [exact Hl | repeat constructor].
  exact Hx.
Qed.

Lemma register_keeps_posts_ok :
  preserves (invariant_step posts_ok) handleRegister.
Proof.
  intros w H; unfold handleRegister, bind, get_state.
  rewrite truthy_trim.
  destruct (blank (username (view w))) eqn:Hb; simpl; [exact H|].
  apply Forall_snoc; [exact H|].
  split; [reflexivity|].
  exists (trim (username (view w))); split; [apply trim_trimmed, Hb|].
  reflexivity.
Qed.

Lemma sendMessage_sends_ok : preserves (invariant_step sends_ok) sendMessage.
Proof.
  intros w H.
  destruct (blank (newMessage (view w))) eqn:Hb;
    [rewrite (sendMessage_blank _ Hb); exact H|].
  destruct (isConnected (view w)) eqn:Hc;
    [|rewrite (sendMessage_disconnected _ Hc); exact H].
  destruct (ws (view w)) as [sock|] eqn:Hws.
  - rewrite (sendMessage_sends _ Hb Hws Hc).
    apply Forall_snoc; [exact H|].
    exists (trim (newMessage (view w))); split; [apply trim_trimmed, Hb|].
    reflexivity.
  - unfold sendMessage, bind, get_state; rewrite Hws, orb_true_r.
    exact H.
Qed.

Ltac logs_ok :=
  unfold invariant_step, posts_ok, sends_ok; simpl;
  let K := fresh in
  intros K; first [exact K | apply Forall_snoc; [exact K | exact I]].

Lemma handler_posts_ok (ev : event) :
  preserves (invariant_step posts_ok) (handler ev).
Proof.
  pose proof register_keeps_posts_ok.
  destruct ev; simpl; preserve_with logs_ok.
Qed.

Lemma handler_sends_ok (ev : event) :
  preserves (invariant_step sends_ok) (handler ev).
Proof.
  pose proof sendMessage_sends_ok.
  destruct ev; simpl; preserve_with logs_ok.
Qed.

(** X18: the client never asks to register an empty name or one with
    white space around it: every POST in the trace of a reachable world
    goes to [/api/register] with a username that is not empty and neither
    starts nor ends with white space. *)
Theorem posts_are_trimmed (w : world) : reachable w -> Forall post_ok (trace w).
Proof.
  intros [evs Hrun].
  assert (H0 : posts_ok mounted) by (repeat constructor).
  revert H0.
  apply (@run_preserves _ (invariant_step posts_ok) _ (fun _ => true)
           (fun ev w0 H => ltac:(settled_world ev w0; exact H))
           (fun ev _ => handler_posts_ok ev) evs mounted w).
  - apply forallb_forall; auto.
  - exact Hrun.
Qed.

(** X19: the client never sends an empty message or one with white
    space around it: every frame in the trace of a reachable world is a
    [message] whose content is not empty and neither starts nor ends with
    white space. *)
Theorem sends_are_trimmed (w : world) : reachable w -> Forall send_ok (trace w).
Proof.
  intros [evs Hrun].
  assert (H0 : sends_ok mounted) by (repeat constructor).
  revert H0.
  apply (@run_preserves _ (invariant_step sends_ok) _ (fun _ => true)
           (fun ev w0 H => ltac:(settled_world ev w0; exact H))
           (fun ev _ => handler_sends_ok ev) evs mounted w).
  - apply forallb_forall; auto.
  - exact Hrun.
Qed.

(** *** The sockets *)

Lemma connectWebSocket_ws_latest (userId username : value) :
  preserves (invariant_step ws_latest) (connectWebSocket userId username).
Proof.
  intros w [Hws Hn]; unfold connectWebSocket, bind, ws_latest.
  destruct (encodeURIComponent _); simpl; [|auto].
  split; [reflexivity|].
  unfold opened; rewrite filter_app, length_app; simpl.
  unfold opened in Hn; lia.
Qed.

Ltac sockets_ok :=
  unfold invariant_step, ws_latest, opened; simpl;
  rewrite ?filter_app; simpl; rewrite ?app_nil_r;
  let K := fresh in intros K; exact K.

Lemma handler_ws_latest (ev : event) :
  preserves (invariant_step ws_latest) (handler ev).
Proof.
  pose proof connectWebSocket_ws_latest.
  destruct ev; simpl; preserve_with sockets_ok.
Qed.

(** X20: in every reachable world [ws] is [null] if no socket has been
    constructed and the socket constructed last otherwise, and as many
    sockets exist as the trace shows constructions: a socket is never
    dropped from [ws] except for a newer one. *)
Theorem ws_is_latest (w : world) : reachable w -> ws_latest w.
Proof.
  intros [evs Hrun].
  assert (H0 : ws_latest mounted) by (split; reflexivity).
  revert H0.
  apply (@run_preserves _ (invariant_step ws_latest) _ (fun _ => true)
           (fun ev w0 H => ltac:(settled_world ev w0; exact H))
           (fun ev _ => handler_ws_latest ev) evs mounted w).
  - apply forallb_forall; auto.
  - exact Hrun.
Qed.

(** X21: the history is requested once, when the component mounts, and
    never again: in every reachable world the trace shows exactly one
    [GET], of [/api/messages]. *)
Theorem history_loaded_once (w : world) :
  reachable w -> loads (trace w) = [AxiosGet (API ++ js "/messages")].
Proof.
  intros [evs Hrun].
  change [AxiosGet (API ++ js "/messages")] with (loads (trace mounted)).
  apply (@run_keeps_gets _ evs mounted w Hrun).
Qed.

(** ** Between a socket event and the next render *)

#[local] Instance more_keeps_disconnected_preorder :
  PreOrder keeps_disconnected.
Proof.
  split; unfold keeps_disconnected.
  - intros w; auto.
  - intros w1 w2 w3 H12 H23 H.
    destruct (H12 H) as [H2 E2]; destruct (H23 H2) as [H3 E3].
    split; congruence.
Qed.

#[local] Instance more_keeps_sockets_preorder : PreOrder keeps_sockets.
Proof.
  split; unfold keeps_sockets.
  - intros w; auto.
  - intros w1 w2 w3 [? ?] [? ?]; split; congruence.
Qed.

(** At the current state the closures are the handlers of [run]. *)
Lemma closure_handler_current (ev : event) (w : world) :
  closure_handler (view w) ev w = handler ev w.
Proof.
  destruct ev; try reflexivity; simpl.
  - destruct (JsString.eqb key (js "Enter")); reflexivity.
  - unfold handleKeyPress_closure, handleKeyPress.
    destruct (JsString.eqb key (js "Enter") && negb shiftKey); reflexivity.
Qed.

Lemma render_all_latest (latest seen : state) :
  render render_all latest seen = latest.
Proof. destruct latest; reflexivity. Qed.

(** [run] is [perform_all] with a render of all cells after every
    event. *)
Lemma run_rendered_after_each (evs : list event) (w w' : world) :
  run w evs = Some w' ->
  perform_all (page_of w) (rendered_after_each evs) = Some (page_of w').
Proof.
  revert w; induction evs as [|ev evs IH]; simpl; intros w Hrun.
  - inversion Hrun; reflexivity.
  - unfold step in Hrun.
    destruct (enabled ev w) eqn:Hen; [|discriminate].
    assert (Hv : view (settle ev w) = view w) by apply settle_view.
    rewrite <- Hv, closure_handler_current, render_all_latest.
    apply IH, Hrun.
Qed.











End More.

(** * The component at work *)

Section Examples.

Local Existing Instance Demo.runtime.

Example trim_example :
  trim ([0x20; 0x09; 0xA0] ++ js "hello world" ++ [0x0A; 0x3000])
  = js "hello world".
Proof. reflexivity. Qed.

Example replace_example :
  replace (js "http://") (js "ws://") (js "http://localhost:8001")
  = js "ws://localhost:8001".
Proof. reflexivity. Qed.

Example encodeURIComponent_example :
  encodeURIComponent (js "bob & al/ice?") = Some (js "bob%20%26%20al%2Fice%3F").
Proof. reflexivity. Qed.

Example encodeURIComponent_utf8 :
  encodeURIComponent [0xE9; 0x20AC; 0xD83D; 0xDE00]
  = Some (js "%C3%A9%E2%82%AC%F0%9F%98%80").
Proof. reflexivity. Qed.

Example session_runs : run mounted Demo.session = Some Demo.chatting.
Proof. reflexivity. Qed.

Example joining_runs :
  run mounted [MessagesSettled (Fulfilled []); UsernameChange (js "alice");
               JoinClick]
  = Some Demo.joining.
Proof. reflexivity. Qed.

Example typed_reachable (input : jsstring) : reachable (Demo.typed input).
Proof.
  exists (Demo.session ++ [NewMessageChange input]); reflexivity.
Qed.

(** A frame that is [null], or text that is not JSON, makes the hook
    throw. *)
Example onmessage_null :
  onmessage (js "null") Demo.chatting = (Throw TypeError, Demo.chatting).
Proof. reflexivity. Qed.

Example onmessage_malformed :
  onmessage (js "{") Demo.chatting = (Throw SyntaxError, Demo.chatting).
Proof. reflexivity. Qed.

(** Bob's message arrives a second time: the list has it twice. *)
Lemma onmessage_message_appends_witness :
  JSON_parse (Demo.stringify Demo.frame_m1) = Some Demo.frame_m1
  /\ field Demo.frame_m1 "type" = VString (js "message")
  /\ onmessage (Demo.stringify Demo.frame_m1) Demo.chatting =
       (Normal tt,
        with_view
          (with_messages
             (messages (view Demo.chatting)
              ++ [VObject [(js "id", VString (js "m1"));
                           (js "user_id", VString (js "u2"));
                           (js "username", VString (js "bob"));
                           (js "content", VString (js "hi"));
                           (js "timestamp",
                            VString (js "2025-01-01T00:00:00"))]])
             (view Demo.chatting))
          Demo.chatting).
Proof.
  split; [reflexivity | split; [reflexivity|]].
  apply (@onmessage_message_appends _ Demo.chatting
           (Demo.stringify Demo.frame_m1) Demo.frame_m1);
    reflexivity.
Defined.

Lemma onmessage_users_online_replaces_witness :
  JSON_parse (Demo.stringify Demo.frame_users) = Some Demo.frame_users
  /\ field Demo.frame_users "type" = VString (js "users_online")
  /\ onmessage (Demo.stringify Demo.frame_users) mounted =
       (Normal tt,
        with_view
          (with_onlineUsers
             (VArray [VObject [(js "id", VString (js "u2"));
                               (js "username", VString (js "bob"))]])
             (view mounted))
          mounted).
Proof.
  split; [reflexivity | split; [reflexivity|]].
  apply (@onmessage_users_online_replaces _ mounted
           (Demo.stringify Demo.frame_users) Demo.frame_users); reflexivity.
Defined.

Lemma onmessage_unknown_tag_ignored_witness :
  JSON_parse (Demo.stringify Demo.frame_typing) = Some Demo.frame_typing
  /\ isNullish Demo.frame_typing = false
  /\ field Demo.frame_typing "type" <> VString (js "message")
  /\ field Demo.frame_typing "type" <> VString (js "users_online")
  /\ onmessage (Demo.stringify Demo.frame_typing) Demo.chatting
     = (Normal tt, Demo.chatting).
Proof.
  assert (Hm : field Demo.frame_typing "type" <> VString (js "message"))
    by discriminate.
  assert (Hu : field Demo.frame_typing "type" <> VString (js "users_online"))
    by discriminate.
  split; [reflexivity|]; split; [reflexivity|].
  split; [exact Hm|]; split; [exact Hu|].
  apply (@onmessage_unknown_tag_ignored _ Demo.chatting
           (Demo.stringify Demo.frame_typing) Demo.frame_typing);
    [reflexivity | reflexivity | exact Hm | exact Hu].
Defined.

Lemma sendMessage_hello_witness :
  newMessage (view (Demo.typed (js "hello"))) = js "hello"
  /\ reachable (Demo.typed (js "hello"))
  /\ isConnected (view (Demo.typed (js "hello"))) = true
  /\ exists sock,
       ws (view (Demo.typed (js "hello"))) = Some sock
       /\ sendMessage (Demo.typed (js "hello")) =
            (Normal tt,
             with_view (with_newMessage [] (view (Demo.typed (js "hello"))))
               (logged
                  (WsSend sock
                     (JSON_stringify
                        (VObject [(js "type", VString (js "message"));
                                  (js "content", VString (js "hello"))])))
                  (Demo.typed (js "hello")))).
Proof.
  assert (Hr : reachable (Demo.typed (js "hello")))
    by (exists (Demo.session ++ [NewMessageChange (js "hello")]); reflexivity).
  split; [reflexivity | split; [exact Hr | split; [reflexivity|]]].
  apply (proj1 (@sendMessage_hello _ (Demo.typed (js "hello")) eq_refl) Hr
           eq_refl).
Defined.

Lemma sendMessage_trims_witness :
  blank (newMessage (view (Demo.typed (js "  hi there ")))) = false
  /\ reachable (Demo.typed (js "  hi there "))
  /\ isConnected (view (Demo.typed (js "  hi there "))) = true
  /\ exists sock,
       ws (view (Demo.typed (js "  hi there "))) = Some sock
       /\ sendMessage (Demo.typed (js "  hi there ")) =
            (Normal tt,
             with_view
               (with_newMessage [] (view (Demo.typed (js "  hi there "))))
               (logged
                  (WsSend sock
                     (JSON_stringify
                        (VObject [(js "type", VString (js "message"));
                                  (js "content", VString (js "hi there"))])))
                  (Demo.typed (js "  hi there ")))).
Proof.
  assert (Hr : reachable (Demo.typed (js "  hi there ")))
    by (exists (Demo.session ++ [NewMessageChange (js "  hi there ")]);
        reflexivity).
  split; [reflexivity | split; [exact Hr | split; [reflexivity|]]].
  apply (proj2 (@sendMessage_trims _ (Demo.typed (js "  hi there "))) eq_refl
           Hr eq_refl).
Defined.

Lemma handleRegister_blank_username_noop_witness :
  blank (username (view (with_view (with_username (js "   ") (view mounted))
                           mounted))) = true
  /\ handleRegister
       (with_view (with_username (js "   ") (view mounted)) mounted)
     = (Normal tt,
        with_view (with_username (js "   ") (view mounted)) mounted).
Proof.
  split; [reflexivity|].
  apply (@handleRegister_blank_username_noop _
           (with_view (with_username (js "   ") (view mounted)) mounted)
           eq_refl).
Defined.

Lemma registration_opens_channel_witness :
  field Demo.alice "id" = VString (js "u1")
  /\ field Demo.alice "username" = VString (js "alice")
  /\ encodeURIComponent (js "alice") = Some (js "alice")
  /\ handleRegister_settled (Fulfilled Demo.alice) Demo.joining =
       (Normal tt,
        with_view
          (with_registering false
             (with_ws (Some 0%nat)
                (with_currentUser Demo.alice (view Demo.joining))))
          (with_sockets 1
             (logged
                (NewWebSocket 0%nat
                   (js "ws://localhost:8001/api/ws/u1?username=alice"))
                Demo.joining)))
  /\ exists w',
       run mounted [MessagesSettled (Fulfilled []);
                    UsernameChange (js "alice"); JoinClick;
                    RegisterSettled (Fulfilled Demo.alice);
                    NewMessageChange (js "hello"); SendClick] = Some w'
       /\ isConnected (view w') = false
       /\ sent (trace w') = [].
Proof.
  destruct (@registration_opens_channel _ Demo.joining Demo.alice (js "u1")
              (js "alice") (js "alice") eq_refl eq_refl eq_refl)
    as (Hreg & _ & Hrun).
  split; [reflexivity|]; split; [reflexivity|]; split; [reflexivity|].
  split; [exact Hreg|].
  eexists; split; [vm_compute; reflexivity|].
  apply (Hrun [MessagesSettled (Fulfilled []);
               UsernameChange (js "alice"); JoinClick;
               RegisterSettled (Fulfilled Demo.alice);
               NewMessageChange (js "hello"); SendClick]); reflexivity.
Defined.

(** C8 as stated fails when the server's [detail] is the empty string:
    the alert shows [Registration failed], not the detail. *)
Lemma registration_failure_empty_detail :
  detail_of Demo.error_empty_detail = VString []
  /\ handleRegister_settled (Rejected Demo.error_empty_detail) Demo.joining =
       (Normal tt,
        with_view (with_registering false (view Demo.joining))
          (logged (Alert (js "Registration failed")) Demo.joining))
  /\ Alert (js "Registration failed")
     <> Alert (ToString (detail_of Demo.error_empty_detail)).
Proof.
  split; [reflexivity|]; split; [reflexivity | discriminate].
Qed.

Lemma registration_failure_alerts_witness :
  isNullish Demo.error_taken = false
  /\ handleRegister_settled (Rejected Demo.error_taken) Demo.joining =
       (Normal tt,
        with_view (with_registering false (view Demo.joining))
          (logged (Alert (js "Username already taken")) Demo.joining))
  /\ blank (username (view Demo.joining)) = false
  /\ trace
       (snd (handleRegister
               (with_view (with_registering false (view Demo.joining))
                  (logged (Alert (js "Username already taken"))
                     Demo.joining))))
     = trace Demo.joining
       ++ [Alert (js "Username already taken");
           AxiosPost (js "http://localhost:8001/api/register")
                     (VObject [(js "username", VString (js "alice"))])].
Proof.
  destruct (@registration_failure_alerts _ Demo.joining Demo.error_taken
              eq_refl) as (Hrun & _ & _ & _ & Hretry).
  destruct (Hretry eq_refl) as (_ & _ & Htrace).
  split; [reflexivity|]; split; [exact Hrun|]; split; [reflexivity|].
  exact Htrace.
Defined.

(** A request that fails without a response, and a response whose data
    is [null]: both end in the same alert. *)
Example registration_failure_network :
  handleRegister_settled (Rejected Demo.error_network) Demo.joining =
    (Normal tt,
     with_view (with_registering false (view Demo.joining))
       (logged (Alert (js "Registration failed")) Demo.joining)).
Proof. reflexivity. Qed.

Example registration_answered_null :
  handleRegister_settled (Fulfilled VNull) Demo.joining =
    (Normal tt,
     with_view
       (with_registering false (with_currentUser VNull (view Demo.joining)))
       (logged (Alert (js "Registration failed")) Demo.joining)).
Proof. reflexivity. Qed.

Lemma loadMessages_failure_logged_only_witness :
  loadMessages_settled (Rejected Demo.error_network) mounted =
    (Normal tt,
     logged (ConsoleError (js "Failed to load messages:") Demo.error_network)
       mounted)
  /\ exists w',
       run (logged (ConsoleError (js "Failed to load messages:")
                      Demo.error_network) mounted)
           [UsernameChange (js "alice"); JoinClick;
            RegisterSettled (Fulfilled Demo.alice); WsOpen 0%nat;
            WsMessage 0%nat (Demo.stringify Demo.frame_m1)] = Some w'
       /\ loads (trace w') =
          [AxiosGet (js "http://localhost:8001/api/messages")].
Proof.
  destruct (@loadMessages_failure_logged_only _ mounted Demo.error_network)
    as (Hrun & _ & _).
  split; [exact Hrun|].
  eexists; split; [vm_compute; reflexivity|].
  match goal with
  | |- loads (trace ?w') = _ =>
      exact (proj2 (proj2 (@loadMessages_failure_logged_only _
               (logged (ConsoleError (js "Failed to load messages:")
                          Demo.error_network) mounted)
               Demo.error_network))
               [UsernameChange (js "alice"); JoinClick;
                RegisterSettled (Fulfilled Demo.alice); WsOpen 0%nat;
                WsMessage 0%nat (Demo.stringify Demo.frame_m1)] w' eq_refl)
  end.
Defined.

End Examples.

(** * More of the component at work *)

Section MoreExamples.

Local Existing Instance Demo.runtime.

Lemma WS_URL_secure_witness :
  @BACKEND_URL (Demo.runtime_at (js "https://chat.example.com"))
  = js "https://" ++ js "chat.example.com"
  /\ occurs (js "http://") (js "chat.example.com") = false
  /\ @WS_URL (Demo.runtime_at (js "https://chat.example.com"))
     = js "wss://" ++ js "chat.example.com".
Proof.
  split; [reflexivity | split; [reflexivity|]].
  apply (@WS_URL_secure (Demo.runtime_at (js "https://chat.example.com"))
           (js "chat.example.com")); reflexivity.
Defined.

Lemma WS_URL_plain_witness :
  BACKEND_URL = js "http://" ++ js "localhost:8001"
  /\ occurs (js "https://") (js "localhost:8001") = false
  /\ WS_URL = js "ws://" ++ js "localhost:8001".
Proof.
  split; [reflexivity | split; [reflexivity|]].
  apply (@WS_URL_plain Demo.runtime (js "localhost:8001")); reflexivity.
Defined.

Lemma WS_URL_other_witness :
  occurs (js "https://") (@BACKEND_URL (Demo.runtime_at (js "/backend")))
  = false
  /\ occurs (js "http://") (@BACKEND_URL (Demo.runtime_at (js "/backend")))
     = false
  /\ @WS_URL (Demo.runtime_at (js "/backend")) = js "/backend".
Proof.
  split; [reflexivity | split; [reflexivity|]].
  apply (@WS_URL_other (Demo.runtime_at (js "/backend"))); reflexivity.
Defined.

Lemma encodeURIComponent_safe_witness :
  code_units (js "bob & al/ice?")
  /\ encodeURIComponent (js "bob & al/ice?")
     = Some (js "bob%20%26%20al%2Fice%3F")
  /\ forallb isUriSafe (js "bob%20%26%20al%2Fice%3F") = true.
Proof.
  assert (H : code_units (js "bob & al/ice?"))
    by (repeat (constructor; [reflexivity|]); constructor).
  split; [exact H | split; [reflexivity|]].
  apply (@encodeURIComponent_safe (js "bob & al/ice?")
           (js "bob%20%26%20al%2Fice%3F") H eq_refl).
Defined.

Example encodeURIComponent_lone_surrogate :
  encodeURIComponent (js "bob" ++ [0xD83D]) = None
  /\ isWellFormed (js "bob" ++ [0xD83D]) = false.
Proof. split; reflexivity. Qed.

Lemma encodeURIComponent_unreserved_witness :
  forallb isUnreserved (js "alice_01") = true
  /\ encodeURIComponent (js "alice_01") = Some (js "alice_01").
Proof.
  split; [reflexivity|].
  apply (@encodeURIComponent_unreserved (js "alice_01") eq_refl).
Defined.

Lemma handleRegister_posts_witness :
  blank (username (view (with_view (with_username (js " alice ")
                                      (view mounted)) mounted))) = false
  /\ handleRegister
       (with_view (with_username (js " alice ") (view mounted)) mounted)
     = (Normal tt,
        with_pending_post 1
          (logged
             (AxiosPost (js "http://localhost:8001/api/register")
                (VObject [(js "username", VString (js "alice"))]))
             (with_view
                (with_registering true
                   (with_username (js " alice ") (view mounted)))
                mounted))).
Proof.
  split; [reflexivity|].
  exact (proj1 (@handleRegister_posts _
           (with_view (with_username (js " alice ") (view mounted)) mounted)
           eq_refl)).
Defined.

Lemma send_button_agrees_witness :
  reachable (Demo.typed (js "  hi there "))
  /\ send_disabled (view (Demo.typed (js "  hi there "))) = false
  /\ exists sock,
       ws (view (Demo.typed (js "  hi there "))) = Some sock
       /\ sendMessage (Demo.typed (js "  hi there ")) =
            (Normal tt,
             with_view
               (with_newMessage [] (view (Demo.typed (js "  hi there "))))
               (logged
                  (WsSend sock
                     (JSON_stringify
                        (VObject [(js "type", VString (js "message"));
                                  (js "content", VString (js "hi there"))])))
                  (Demo.typed (js "  hi there ")))).
Proof.
  assert (Hr : reachable (Demo.typed (js "  hi there ")))
    by (exists (Demo.session ++ [NewMessageChange (js "  hi there ")]);
        vm_compute; reflexivity).
  split; [exact Hr | split; [reflexivity|]].
  exact (@send_button_agrees _ (Demo.typed (js "  hi there ")) Hr).
Defined.

Lemma messages_append_only_witness :
  forallb (fun ev => negb (is_loaded ev))
    [WsMessage 0%nat (Demo.stringify Demo.frame_m1); WsClose 0%nat;
     NewMessageChange (js "x"); SendClick] = true
  /\ exists w',
       run Demo.chatting
         [WsMessage 0%nat (Demo.stringify Demo.frame_m1); WsClose 0%nat;
          NewMessageChange (js "x"); SendClick] = Some w'
       /\ exists more,
            messages (view w') = messages (view Demo.chatting) ++ more.
Proof.
  split; [reflexivity|].
  eexists; split; [vm_compute; reflexivity|].
  match goal with
  | |- exists more, messages (view ?w') = _ =>
      exact (@messages_append_only _
               [WsMessage 0%nat (Demo.stringify Demo.frame_m1);
                WsClose 0%nat; NewMessageChange (js "x"); SendClick]
               Demo.chatting w' eq_refl eq_refl)
  end.
Defined.

Lemma messages_in_arrival_order_witness :
  (0 < sockets Demo.chatting)%nat
  /\ Forall (fun f => JSON_parse (fst f) = Some (snd f)
                      /\ field (snd f) "type" = VString (js "message"))
       [(Demo.stringify Demo.frame_m1, Demo.frame_m1);
        (Demo.stringify Demo.frame_m1, Demo.frame_m1)]
  /\ run Demo.chatting
       [WsMessage 0%nat (Demo.stringify Demo.frame_m1);
        WsMessage 0%nat (Demo.stringify Demo.frame_m1)]
     = Some (with_view
               (with_messages
                  (messages (view Demo.chatting)
                   ++ [entry_of Demo.frame_m1; entry_of Demo.frame_m1])
                  (view Demo.chatting))
               Demo.chatting).
Proof.
  assert (Hs : (0 < sockets Demo.chatting)%nat) by (simpl; lia).
  assert (Hf : Forall (fun f => JSON_parse (fst f) = Some (snd f)
                         /\ field (snd f) "type" = VString (js "message"))
                 [(Demo.stringify Demo.frame_m1, Demo.frame_m1);
                  (Demo.stringify Demo.frame_m1, Demo.frame_m1)])
    by (repeat constructor).
  split; [exact Hs | split; [exact Hf|]].
  exact (@messages_in_arrival_order _ _ 0%nat Demo.chatting Hs Hf).
Defined.

Lemma bulk_load_overwrites_witness :
  (0 < sockets (with_pending_get 1 Demo.chatting))%nat
  /\ (0 < pending_get (with_pending_get 1 Demo.chatting))%nat
  /\ JSON_parse (Demo.stringify Demo.frame_m1) = Some Demo.frame_m1
  /\ field Demo.frame_m1 "type" = VString (js "message")
  /\ option_map (fun w' => messages (view w'))
       (run (with_pending_get 1 Demo.chatting)
          [WsMessage 0%nat (Demo.stringify Demo.frame_m1);
           MessagesSettled (Fulfilled [])])
     = Some []
  /\ option_map (fun w' => messages (view w'))
       (run (with_pending_get 1 Demo.chatting)
          [MessagesSettled (Fulfilled []);
           WsMessage 0%nat (Demo.stringify Demo.frame_m1)])
     = Some ([] ++ [entry_of Demo.frame_m1]).
Proof.
  assert (Hs : (0 < sockets (with_pending_get 1 Demo.chatting))%nat)
    by (simpl; lia).
  assert (Hg : (0 < pending_get (with_pending_get 1 Demo.chatting))%nat)
    by (simpl; lia).
  split; [exact Hs | split; [exact Hg|]].
  split; [reflexivity | split; [reflexivity|]].
  exact (@bulk_load_overwrites _ (with_pending_get 1 Demo.chatting) 0%nat
           (Demo.stringify Demo.frame_m1) Demo.frame_m1 [] Hs Hg
           eq_refl eq_refl).
Defined.

Lemma current_user_stable_witness :
  forallb (fun ev => negb (is_registered ev))
    [UsernameChange (js "alice"); JoinClick;
     RegisterSettled (Rejected Demo.error_taken)] = true
  /\ exists w',
       run mounted [UsernameChange (js "alice"); JoinClick;
                    RegisterSettled (Rejected Demo.error_taken)] = Some w'
       /\ currentUser (view w') = VNull
       /\ login_screen (view w') = true.
Proof.
  split; [reflexivity|].
  eexists; split; [vm_compute; reflexivity|].
  match goal with
  | |- currentUser (view ?w') = _ /\ _ =>
      exact (@current_user_stable _
               [UsernameChange (js "alice"); JoinClick;
                RegisterSettled (Rejected Demo.error_taken)]
               mounted w' eq_refl eq_refl)
  end.
Defined.

Lemma posts_are_trimmed_witness :
  reachable Demo.chatting /\ Forall post_ok (trace Demo.chatting).
Proof.
  assert (Hr : reachable Demo.chatting)
    by (exists Demo.session; vm_compute; reflexivity).
  split; [exact Hr | exact (@posts_are_trimmed _ Demo.chatting Hr)].
Defined.

Lemma sends_are_trimmed_witness :
  reachable (snd (sendMessage (Demo.typed (js " hello "))))
  /\ Forall send_ok (trace (snd (sendMessage (Demo.typed (js " hello "))))).
Proof.
  assert (Hr : reachable (snd (sendMessage (Demo.typed (js " hello ")))))
    by (exists (Demo.session ++ [NewMessageChange (js " hello "); SendClick]);
        vm_compute; reflexivity).
  split; [exact Hr|].
  exact (@sends_are_trimmed _ _ Hr).
Defined.

Lemma ws_is_latest_witness :
  reachable Demo.chatting /\ ws_latest Demo.chatting.
Proof.
  assert (Hr : reachable Demo.chatting)
    by (exists Demo.session; vm_compute; reflexivity).
  split; [exact Hr | exact (@ws_is_latest _ Demo.chatting Hr)].
Defined.

Lemma history_loaded_once_witness :
  reachable Demo.stranded
  /\ loads (trace Demo.stranded)
     = [AxiosGet (js "http://localhost:8001/api/messages")].
Proof.
  assert (Hr : reachable Demo.stranded)
    by (exists (Demo.session ++ [WsClose 0%nat]); vm_compute; reflexivity).
  split; [exact Hr | exact (@history_loaded_once _ Demo.stranded Hr)].
Defined.



Lemma registration_success_paths_witness :
  (isNullish VNull = true
   \/ (field VNull "username" = VString []
       /\ encodeURIComponent [] = None))
  /\ handleRegister_settled (Fulfilled VNull) Demo.joining =
       (Normal tt,
        with_view
          (with_registering false
             (with_currentUser VNull (view Demo.joining)))
          (logged (Alert (js "Registration failed")) Demo.joining)).
Proof.
  assert (H : isNullish VNull = true
              \/ (field VNull "username" = VString []
                  /\ encodeURIComponent [] = None))
    by (left; reflexivity).
  split; [exact H|].
  exact (@registration_success_paths _ Demo.joining VNull [] H).
Defined.

Example registration_lone_surrogate :
  handleRegister_settled
    (Fulfilled (VObject [(js "id", VString (js "u1"));
                         (js "username", VString [0xD83D])]))
    Demo.joining
  = (Normal tt,
     with_view
       (with_registering false
          (with_currentUser
             (VObject [(js "id", VString (js "u1"));
                       (js "username", VString [0xD83D])])
             (view Demo.joining)))
       (logged (Alert (js "Registration failed")) Demo.joining)).
Proof. reflexivity. Qed.

Lemma sendMessage_twice_witness :
  fst (sendMessage (Demo.typed (js "hello"))) = Normal tt
  /\ sendMessage (snd (sendMessage (Demo.typed (js "hello"))))
     = (Normal tt, snd (sendMessage (Demo.typed (js "hello")))).
Proof.
  split; [reflexivity|].
  exact (@sendMessage_twice _ (Demo.typed (js "hello")) eq_refl).
Defined.

End MoreExamples.
